(** * surveyor.py: a shallow embedding and its checked properties

    The survey tool reads search criteria (one query, a file of indicators
    or JSON definition files), asks a Cb Response server for the matching
    processes and writes the distinct (hostname, username, path, cmdline)
    tuples of every source to a CSV file.

    The embedding follows [src/surveyor.py] function by function.  A
    Python byte string is the [string] of its bytes and a unicode object
    the [string] of its UTF-8 encoding; [strip] acts on the lines of the
    indicator file, which are byte strings, and [lower] on the hostname and
    username of a process, which are unicode objects.  Python integers are
    [Z]; a Python [set] of tuples is a [gset]; a [dict] is the association
    list of its items in the order [iteritems] yields them; exceptions and
    the effects of [main] (queries sent to the server, lines printed, rows
    written) live in a small state-and-exception monad.  The file system,
    [json.load] and the server are inputs of the model ([World],
    [CbConn]). *)

From Stdlib Require Import ZArith String Ascii List.
From stdpp Require Import base decidable option list gmap strings pretty.

Local Open Scope string_scope.
Local Open Scope list_scope.
Local Open Scope Z_scope.

(** ** Python built-ins used by the script *)

Module Py.


(** [str.strip] without argument: whitespace (space, and the bytes 9 to
    13) is removed at both ends. *)
Fixpoint lstrip (s : string) : string :=
  match s with
  | EmptyString => EmptyString
  | String c s' => if Ascii.is_space c then lstrip s' else s
  end.

Definition rstrip (s : string) : string :=
  String.rev (lstrip (String.rev s)).

Definition strip (s : string) : string := rstrip (lstrip s).

(** [sep.join(parts)]. *)
Definition join (sep : string) (parts : list string) : string :=
  String.concat sep parts.

(** [s.endswith(suffix)]. *)
Definition endswith (s suffix : string) : bool :=
  let n := String.length s in
  let k := String.length suffix in
  (k <=? n)%nat && bool_decide (substring (n - k) k s = suffix).

(** ['%d' % n]. *)
Definition fmt_d (n : Z) : string := pretty n.

(** Truth value of an optional string or integer, as [if x:] takes it:
    [None], the empty string and zero are false. *)
Definition truthy_str (o : option string) : bool :=
  match o with
  | Some s => negb (bool_decide (s = ""))
  | None => false
  end.

Definition truthy_int (o : option Z) : bool :=
  match o with
  | Some n => negb (n =? 0)
  | None => false
  end.

(** [s.rfind(c)] as an option: the index of the last occurrence. *)
Fixpoint rfind (c : ascii) (s : string) : option nat :=
  match s with
  | EmptyString => None
  | String d s' =>
      match rfind c s' with
      | Some i => Some (S i)
      | None => if decide (c = d) then Some 0%nat else None
      end
  end.

(** [s[i:]] and [s[:i]]. *)
Definition drop (i : nat) (s : string) : string :=
  substring i (String.length s - i) s.
Definition take (i : nat) (s : string) : string := substring 0 i s.

(** [os.path.basename] (posixpath): what follows the last slash. *)
Definition basename (p : string) : string :=
  match rfind "/" p with
  | Some i => drop (S i) p
  | None => p
  end.

(** [os.path.splitext(p)[0]] (genericpath._splitext): the path up to the
    last dot, when that dot comes after the last slash and some byte
    between the two is not a dot; the whole path otherwise. *)
Fixpoint all_dots (s : string) : bool :=
  match s with
  | EmptyString => true
  | String c s' => bool_decide (c = "."%char) && all_dots s'
  end.

Definition splitext_root (p : string) : string :=
  let filenameIndex :=
    match rfind "/" p with Some i => S i | None => 0%nat end in
  match rfind "." p with
  | Some dotIndex =>
      if (filenameIndex <=? dotIndex)%nat
         && negb (all_dots (substring filenameIndex
                                      (dotIndex - filenameIndex) p))
      then take dotIndex p else p
  | None => p
  end.

(** [os.path.join(a, b)] (posixpath) for two components. *)
Definition path_join (a b : string) : string :=
  match b with
  | String "/" _ => b
  | _ =>
      if bool_decide (a = "") || endswith a "/" then a +:+ b
      else a +:+ "/" +:+ b
  end.

(** *** [unicode.lower] and [unicode.upper]

    The hostname and the username of a process are unicode objects.  A
    unicode object is modelled by its UTF-8 encoding, which is also what
    line 152 writes to the CSV file.  [lower] and [upper] replace every
    character by its simple lower-case or upper-case mapping in the Unicode
    database of Python 2.7 (version 5.2.0), as [unicode.lower] and
    [unicode.upper] do in a build with four-byte characters. *)

(** The letters [A]..[Z] move down by 32, the letters [a]..[z] up. *)
Definition lower_char (c : ascii) : ascii :=
  let n := N_of_ascii c in
  if ((65 <=? n) && (n <=? 90))%N then ascii_of_N (n + 32) else c.

Definition upper_char (c : ascii) : ascii :=
  let n := N_of_ascii c in
  if ((97 <=? n) && (n <=? 122))%N then ascii_of_N (n - 32) else c.

(** The UTF-8 encoding of a code point. *)
Definition utf8 (n : N) : string :=
  let byte k := ascii_of_N k in
  (if n <? 0x80 then String (byte n) ""
   else if n <? 0x800 then
     String (byte (0xC0 + n / 64)) (String (byte (0x80 + n mod 64)) "")
   else if n <? 0x10000 then
     String (byte (0xE0 + n / 4096))
       (String (byte (0x80 + (n / 64) mod 64))
          (String (byte (0x80 + n mod 64)) ""))
   else
     String (byte (0xF0 + n / 262144))
       (String (byte (0x80 + (n / 4096) mod 64))
          (String (byte (0x80 + (n / 64) mod 64))
             (String (byte (0x80 + n mod 64)) ""))))%N.

(** A continuation byte of UTF-8, [10xxxxxx]. *)
Definition is_cont (c : ascii) : bool :=
  ((128 <=? N_of_ascii c) && (N_of_ascii c <=? 191))%N.

Definition starts_cont (u : string) : bool :=
  match u with
  | EmptyString => false
  | String c _ => is_cont c
  end.

(** The characters of a text: a character starts at every byte that is not
    a continuation byte and takes the continuation bytes that follow it. *)
Fixpoint chars (s : string) : list string :=
  match s with
  | EmptyString => []
  | String c s' =>
      match chars s' with
      | [] => [String c EmptyString]
      | u :: us =>
          if starts_cont u then String c u :: us
          else String c EmptyString :: u :: us
      end
  end.

Definition unchars (us : list string) : string :=
  fold_right String.append EmptyString us.

(** [count] code points from [first] on, [step] apart, mapped to the code
    points from [target] on, [step] apart. *)
Definition case_run (first : N) (count : nat) (step : N) (target : N)
  : list (N * N) :=
  map (λ k, (first + N.of_nat k * step, target + N.of_nat k * step)%N)
      (seq 0 count).

(** The characters above [U+007F] that have a simple lower-case mapping,
    with that mapping. *)
Definition lower_pairs : list (N * N) :=
  (concat
  [
   case_run 0xC0 23 1 0xE0; case_run 0xD8 7 1 0xF8; case_run 0x100 24 2 0x101;
   case_run 0x130 1 1 0x69; case_run 0x132 3 2 0x133; case_run 0x139 8 2 0x13A;
   case_run 0x14A 23 2 0x14B; case_run 0x178 1 1 0xFF;
   case_run 0x179 3 2 0x17A; case_run 0x181 1 1 0x253;
   case_run 0x182 2 2 0x183; case_run 0x186 1 1 0x254;
   case_run 0x187 1 1 0x188; case_run 0x189 2 1 0x256;
   case_run 0x18B 1 1 0x18C; case_run 0x18E 1 1 0x1DD;
   case_run 0x18F 1 1 0x259; case_run 0x190 1 1 0x25B;
   case_run 0x191 1 1 0x192; case_run 0x193 1 1 0x260;
   case_run 0x194 1 1 0x263; case_run 0x196 1 1 0x269;
   case_run 0x197 1 1 0x268; case_run 0x198 1 1 0x199;
   case_run 0x19C 1 1 0x26F; case_run 0x19D 1 1 0x272;
   case_run 0x19F 1 1 0x275; case_run 0x1A0 3 2 0x1A1;
   case_run 0x1A6 1 1 0x280; case_run 0x1A7 1 1 0x1A8;
   case_run 0x1A9 1 1 0x283; case_run 0x1AC 1 1 0x1AD;
   case_run 0x1AE 1 1 0x288; case_run 0x1AF 1 1 0x1B0;
   case_run 0x1B1 2 1 0x28A; case_run 0x1B3 2 2 0x1B4;
   case_run 0x1B7 1 1 0x292; case_run 0x1B8 1 1 0x1B9;
   case_run 0x1BC 1 1 0x1BD; case_run 0x1C4 1 1 0x1C6;
   case_run 0x1C5 1 1 0x1C6; case_run 0x1C7 1 1 0x1C9;
   case_run 0x1C8 1 1 0x1C9; case_run 0x1CA 1 1 0x1CC;
   case_run 0x1CB 9 2 0x1CC; case_run 0x1DE 9 2 0x1DF;
   case_run 0x1F1 1 1 0x1F3; case_run 0x1F2 2 2 0x1F3;
   case_run 0x1F6 1 1 0x195; case_run 0x1F7 1 1 0x1BF;
   case_run 0x1F8 20 2 0x1F9; case_run 0x220 1 1 0x19E;
   case_run 0x222 9 2 0x223; case_run 0x23A 1 1 0x2C65;
   case_run 0x23B 1 1 0x23C; case_run 0x23D 1 1 0x19A;
   case_run 0x23E 1 1 0x2C66; case_run 0x241 1 1 0x242;
   case_run 0x243 1 1 0x180; case_run 0x244 1 1 0x289;
   case_run 0x245 1 1 0x28C; case_run 0x246 5 2 0x247;
   case_run 0x370 2 2 0x371; case_run 0x376 1 1 0x377;
   case_run 0x386 1 1 0x3AC; case_run 0x388 3 1 0x3AD;
   case_run 0x38C 1 1 0x3CC; case_run 0x38E 2 1 0x3CD;
   case_run 0x391 17 1 0x3B1; case_run 0x3A3 9 1 0x3C3;
   case_run 0x3CF 1 1 0x3D7; case_run 0x3D8 12 2 0x3D9;
   case_run 0x3F4 1 1 0x3B8; case_run 0x3F7 1 1 0x3F8;
   case_run 0x3F9 1 1 0x3F2; case_run 0x3FA 1 1 0x3FB;
   case_run 0x3FD 3 1 0x37B; case_run 0x400 16 1 0x450;
   case_run 0x410 32 1 0x430; case_run 0x460 17 2 0x461;
   case_run 0x48A 27 2 0x48B; case_run 0x4C0 1 1 0x4CF;
   case_run 0x4C1 7 2 0x4C2; case_run 0x4D0 43 2 0x4D1;
   case_run 0x531 38 1 0x561; case_run 0x10A0 38 1 0x2D00;
   case_run 0x1E00 75 2 0x1E01; case_run 0x1E9E 1 1 0xDF;
   case_run 0x1EA0 48 2 0x1EA1; case_run 0x1F08 8 1 0x1F00;
   case_run 0x1F18 6 1 0x1F10; case_run 0x1F28 8 1 0x1F20;
   case_run 0x1F38 8 1 0x1F30; case_run 0x1F48 6 1 0x1F40;
   case_run 0x1F59 4 2 0x1F51; case_run 0x1F68 8 1 0x1F60;
   case_run 0x1F88 8 1 0x1F80; case_run 0x1F98 8 1 0x1F90;
   case_run 0x1FA8 8 1 0x1FA0; case_run 0x1FB8 2 1 0x1FB0;
   case_run 0x1FBA 2 1 0x1F70; case_run 0x1FBC 1 1 0x1FB3;
   case_run 0x1FC8 4 1 0x1F72; case_run 0x1FCC 1 1 0x1FC3;
   case_run 0x1FD8 2 1 0x1FD0; case_run 0x1FDA 2 1 0x1F76;
   case_run 0x1FE8 2 1 0x1FE0; case_run 0x1FEA 2 1 0x1F7A;
   case_run 0x1FEC 1 1 0x1FE5; case_run 0x1FF8 2 1 0x1F78;
   case_run 0x1FFA 2 1 0x1F7C; case_run 0x1FFC 1 1 0x1FF3;
   case_run 0x2126 1 1 0x3C9; case_run 0x212A 1 1 0x6B;
   case_run 0x212B 1 1 0xE5; case_run 0x2132 1 1 0x214E;
   case_run 0x2160 16 1 0x2170; case_run 0x2183 1 1 0x2184;
   case_run 0x24B6 26 1 0x24D0; case_run 0x2C00 47 1 0x2C30;
   case_run 0x2C60 1 1 0x2C61; case_run 0x2C62 1 1 0x26B;
   case_run 0x2C63 1 1 0x1D7D; case_run 0x2C64 1 1 0x27D;
   case_run 0x2C67 3 2 0x2C68; case_run 0x2C6D 1 1 0x251;
   case_run 0x2C6E 1 1 0x271; case_run 0x2C6F 1 1 0x250;
   case_run 0x2C70 1 1 0x252; case_run 0x2C72 1 1 0x2C73;
   case_run 0x2C75 1 1 0x2C76; case_run 0x2C7E 2 1 0x23F;
   case_run 0x2C80 50 2 0x2C81; case_run 0x2CEB 2 2 0x2CEC;
   case_run 0xA640 16 2 0xA641; case_run 0xA662 6 2 0xA663;
   case_run 0xA680 12 2 0xA681; case_run 0xA722 7 2 0xA723;
   case_run 0xA732 31 2 0xA733; case_run 0xA779 2 2 0xA77A;
   case_run 0xA77D 1 1 0x1D79; case_run 0xA77E 5 2 0xA77F;
   case_run 0xA78B 1 1 0xA78C; case_run 0xFF21 26 1 0xFF41;
   case_run 0x10400 40 1 0x10428
  ])%N.

(** The characters above [U+007F] that have a simple upper-case mapping,
    with that mapping. *)
Definition upper_pairs : list (N * N) :=
  (concat
  [
   case_run 0xB5 1 1 0x39C; case_run 0xE0 23 1 0xC0; case_run 0xF8 7 1 0xD8;
   case_run 0xFF 1 1 0x178; case_run 0x101 24 2 0x100; case_run 0x131 1 1 0x49;
   case_run 0x133 3 2 0x132; case_run 0x13A 8 2 0x139;
   case_run 0x14B 23 2 0x14A; case_run 0x17A 3 2 0x179;
   case_run 0x17F 1 1 0x53; case_run 0x180 1 1 0x243; case_run 0x183 2 2 0x182;
   case_run 0x188 1 1 0x187; case_run 0x18C 1 1 0x18B;
   case_run 0x192 1 1 0x191; case_run 0x195 1 1 0x1F6;
   case_run 0x199 1 1 0x198; case_run 0x19A 1 1 0x23D;
   case_run 0x19E 1 1 0x220; case_run 0x1A1 3 2 0x1A0;
   case_run 0x1A8 1 1 0x1A7; case_run 0x1AD 1 1 0x1AC;
   case_run 0x1B0 1 1 0x1AF; case_run 0x1B4 2 2 0x1B3;
   case_run 0x1B9 1 1 0x1B8; case_run 0x1BD 1 1 0x1BC;
   case_run 0x1BF 1 1 0x1F7; case_run 0x1C5 1 1 0x1C4;
   case_run 0x1C6 1 1 0x1C4; case_run 0x1C8 1 1 0x1C7;
   case_run 0x1C9 1 1 0x1C7; case_run 0x1CB 1 1 0x1CA;
   case_run 0x1CC 1 1 0x1CA; case_run 0x1CE 8 2 0x1CD;
   case_run 0x1DD 1 1 0x18E; case_run 0x1DF 9 2 0x1DE;
   case_run 0x1F2 1 1 0x1F1; case_run 0x1F3 1 1 0x1F1;
   case_run 0x1F5 1 1 0x1F4; case_run 0x1F9 20 2 0x1F8;
   case_run 0x223 9 2 0x222; case_run 0x23C 1 1 0x23B;
   case_run 0x23F 2 1 0x2C7E; case_run 0x242 1 1 0x241;
   case_run 0x247 5 2 0x246; case_run 0x250 1 1 0x2C6F;
   case_run 0x251 1 1 0x2C6D; case_run 0x252 1 1 0x2C70;
   case_run 0x253 1 1 0x181; case_run 0x254 1 1 0x186;
   case_run 0x256 2 1 0x189; case_run 0x259 1 1 0x18F;
   case_run 0x25B 1 1 0x190; case_run 0x260 1 1 0x193;
   case_run 0x263 1 1 0x194; case_run 0x268 1 1 0x197;
   case_run 0x269 1 1 0x196; case_run 0x26B 1 1 0x2C62;
   case_run 0x26F 1 1 0x19C; case_run 0x271 1 1 0x2C6E;
   case_run 0x272 1 1 0x19D; case_run 0x275 1 1 0x19F;
   case_run 0x27D 1 1 0x2C64; case_run 0x280 1 1 0x1A6;
   case_run 0x283 1 1 0x1A9; case_run 0x288 1 1 0x1AE;
   case_run 0x289 1 1 0x244; case_run 0x28A 2 1 0x1B1;
   case_run 0x28C 1 1 0x245; case_run 0x292 1 1 0x1B7;
   case_run 0x345 1 1 0x399; case_run 0x371 2 2 0x370;
   case_run 0x377 1 1 0x376; case_run 0x37B 3 1 0x3FD;
   case_run 0x3AC 1 1 0x386; case_run 0x3AD 3 1 0x388;
   case_run 0x3B1 17 1 0x391; case_run 0x3C2 1 1 0x3A3;
   case_run 0x3C3 9 1 0x3A3; case_run 0x3CC 1 1 0x38C;
   case_run 0x3CD 2 1 0x38E; case_run 0x3D0 1 1 0x392;
   case_run 0x3D1 1 1 0x398; case_run 0x3D5 1 1 0x3A6;
   case_run 0x3D6 1 1 0x3A0; case_run 0x3D7 1 1 0x3CF;
   case_run 0x3D9 12 2 0x3D8; case_run 0x3F0 1 1 0x39A;
   case_run 0x3F1 1 1 0x3A1; case_run 0x3F2 1 1 0x3F9;
   case_run 0x3F5 1 1 0x395; case_run 0x3F8 1 1 0x3F7;
   case_run 0x3FB 1 1 0x3FA; case_run 0x430 32 1 0x410;
   case_run 0x450 16 1 0x400; case_run 0x461 17 2 0x460;
   case_run 0x48B 27 2 0x48A; case_run 0x4C2 7 2 0x4C1;
   case_run 0x4CF 1 1 0x4C0; case_run 0x4D1 43 2 0x4D0;
   case_run 0x561 38 1 0x531; case_run 0x1D79 1 1 0xA77D;
   case_run 0x1D7D 1 1 0x2C63; case_run 0x1E01 75 2 0x1E00;
   case_run 0x1E9B 1 1 0x1E60; case_run 0x1EA1 48 2 0x1EA0;
   case_run 0x1F00 8 1 0x1F08; case_run 0x1F10 6 1 0x1F18;
   case_run 0x1F20 8 1 0x1F28; case_run 0x1F30 8 1 0x1F38;
   case_run 0x1F40 6 1 0x1F48; case_run 0x1F51 4 2 0x1F59;
   case_run 0x1F60 8 1 0x1F68; case_run 0x1F70 2 1 0x1FBA;
   case_run 0x1F72 4 1 0x1FC8; case_run 0x1F76 2 1 0x1FDA;
   case_run 0x1F78 2 1 0x1FF8; case_run 0x1F7A 2 1 0x1FEA;
   case_run 0x1F7C 2 1 0x1FFA; case_run 0x1F80 8 1 0x1F88;
   case_run 0x1F90 8 1 0x1F98; case_run 0x1FA0 8 1 0x1FA8;
   case_run 0x1FB0 2 1 0x1FB8; case_run 0x1FB3 1 1 0x1FBC;
   case_run 0x1FBE 1 1 0x399; case_run 0x1FC3 1 1 0x1FCC;
   case_run 0x1FD0 2 1 0x1FD8; case_run 0x1FE0 2 1 0x1FE8;
   case_run 0x1FE5 1 1 0x1FEC; case_run 0x1FF3 1 1 0x1FFC;
   case_run 0x214E 1 1 0x2132; case_run 0x2170 16 1 0x2160;
   case_run 0x2184 1 1 0x2183; case_run 0x24D0 26 1 0x24B6;
   case_run 0x2C30 47 1 0x2C00; case_run 0x2C61 1 1 0x2C60;
   case_run 0x2C65 1 1 0x23A; case_run 0x2C66 1 1 0x23E;
   case_run 0x2C68 3 2 0x2C67; case_run 0x2C73 1 1 0x2C72;
   case_run 0x2C76 1 1 0x2C75; case_run 0x2C81 50 2 0x2C80;
   case_run 0x2CEC 2 2 0x2CEB; case_run 0x2D00 38 1 0x10A0;
   case_run 0xA641 16 2 0xA640; case_run 0xA663 6 2 0xA662;
   case_run 0xA681 12 2 0xA680; case_run 0xA723 7 2 0xA722;
   case_run 0xA733 31 2 0xA732; case_run 0xA77A 2 2 0xA779;
   case_run 0xA77F 5 2 0xA77E; case_run 0xA78C 1 1 0xA78B;
   case_run 0xFF41 26 1 0xFF21; case_run 0x10428 40 1 0x10400
  ])%N.

Definition lower_table : list (string * string) :=
  Eval vm_compute in map (λ '(c, t), (utf8 c, utf8 t)) lower_pairs.

Definition upper_table : list (string * string) :=
  Eval vm_compute in map (λ '(c, t), (utf8 c, utf8 t)) upper_pairs.

Fixpoint assoc (table : list (string * string)) (u : string)
  : option string :=
  match table with
  | [] => None
  | (k, v) :: table' => if String.eqb k u then Some v else assoc table' u
  end.

(** The mapping of one character: by the table, or else by the first
    byte. *)
Definition lower_unit (u : string) : string :=
  match assoc lower_table u with
  | Some v => v
  | None =>
      match u with
      | EmptyString => EmptyString
      | String c r => String (lower_char c) r
      end
  end.

Definition upper_unit (u : string) : string :=
  match assoc upper_table u with
  | Some v => v
  | None =>
      match u with
      | EmptyString => EmptyString
      | String c r => String (upper_char c) r
      end
  end.

Definition lower (s : string) : string := unchars (map lower_unit (chars s)).
Definition upper (s : string) : string := unchars (map upper_unit (chars s)).

End Py.

(** ** Exceptions, and the monad of the script's effects *)

Inductive exn : Type :=
| KeyboardInterrupt
| TypeError
| ValueError
| IOError
| SystemExit (code : Z)
| ApiError (msg : string).

Global Instance exn_eq_dec : EqDecision exn.
Proof. solve_decision. Defined.

(** What the run has done so far: the filters sent to the server, the lines
    printed on standard output and standard error, the name of the CSV file
    once it is opened, and the rows written to it. *)
Record St : Type := mkSt {
  queries : list string;
  stdout : list string;
  stderr : list string;
  csv_name : option string;
  csv_rows : list (list string)
}.

Definition St0 : St := mkSt [] [] [] None [].

(** The state once the filters [qs] have been sent, once [line] has been
    printed, and once [rows] have been written to the CSV file. *)
Definition sent (qs : list string) (st : St) : St :=
  mkSt (queries st ++ qs) (stdout st) (stderr st) (csv_name st)
       (csv_rows st).

Definition printed (line : string) (st : St) : St :=
  mkSt (queries st) (stdout st ++ [line]) (stderr st) (csv_name st)
       (csv_rows st).

Definition wrote (rows : list (list string)) (st : St) : St :=
  mkSt (queries st) (stdout st) (stderr st) (csv_name st)
       (csv_rows st ++ rows).

Inductive result (A : Type) : Type :=
| Return (a : A)
| Raise (e : exn).
Global Arguments Return {A} a.
Global Arguments Raise {A} e.

(** A computation takes the state and gives back a value or an exception,
    with the state as it is at that point: what was sent, printed or
    written before an exception stays. *)
Definition M (A : Type) : Type := St → result A * St.

Global Instance M_ret : MRet M := λ A a st, (Return a, st).
Global Instance M_bind : MBind M := λ A B f m st,
  match m st with
  | (Return a, st') => f a st'
  | (Raise e, st') => (Raise e, st')
  end.

Definition raise {A} (e : exn) : M A := λ st, (Raise e, st).

Definition print (line : string) : M unit := λ st,
  (Return (), printed line st).

(** [for x in xs: body x], stopping at the first exception. *)
Fixpoint for_each {A} (xs : list A) (body : A → M unit) : M unit :=
  match xs with
  | [] => mret ()
  | x :: xs' => body x ;; for_each xs' body
  end.

(** ** The Cb Response server, as the script sees it *)

(** A process document of the server: the four attributes the script
    reads. *)
Record Process : Type := mkProcess {
  hostname : string;
  username : string;
  path : string;
  cmdline : string
}.

(** The tuple kept for a process: (hostname, username, path, cmdline). *)
Abbreviation ResultTuple := (string * string * string * string)%type.

(** What iterating over [cb_conn.select(Process).where(query)] does: the
    processes it yields, in order, and then either the end of the iteration
    ([None]) or an exception raised in place of the next process.  An
    exception raised before the first process has [records = []]. *)
Record Response : Type := mkResponse {
  records : list Process;
  finish : option exn
}.

(** The connection answers a filter; its answer may depend on the filters it
    was sent before. *)
Definition CbConn : Type := list string → string → Response.

Definition select_where (cb_conn : CbConn) (query : string) : M Response :=
  λ st, (Return (cb_conn (queries st) query), sent [query] st).

(** ** process_search and nested_process_search *)

(** The tuple built from [proc] at lines 48-51 and 69-72. *)
Definition result_tuple (proc : Process) : ResultTuple :=
  (Py.lower (hostname proc), Py.lower (username proc), path proc,
   cmdline proc).

(** [results.add(...)] for every process the iteration yields. *)
Definition add_all (results : gset ResultTuple) (procs : list Process)
  : gset ResultTuple :=
  foldl (λ results proc, results ∪ {[ result_tuple proc ]}) results procs.

(** [query += query_base]: a [TypeError] when [query_base] is [None]. *)
Definition str_iadd (query : string) (query_base : option string)
  : result string :=
  match query_base with
  | Some qb => Return (query +:+ qb)
  | None => Raise TypeError
  end.

(** A [try] block around a loop that fills the local set [results]: the
    block gives the set as it is when control leaves the block, and the
    exception that made it leave, if one did. *)
Definition Try : Type := St → (gset ResultTuple * option exn) * St.

(** Lines 47-51: the [for] loop over one search. *)
Definition search_try (cb_conn : CbConn) (query : string)
    (results : gset ResultTuple) : Try :=
  λ st,
    match select_where cb_conn query st with
    | (Return resp, st') =>
        ((add_all results (records resp), finish resp), st')
    | (Raise e, st') => ((results, Some e), st')
    end.

(** Lines 52-55 and 73-76: [except KeyboardInterrupt] prints and falls
    through to [return results]; any other exception leaves the function. *)
Definition except_KeyboardInterrupt (body : Try) : M (gset ResultTuple) :=
  λ st,
    match body st with
    | ((results, None), st') => (Return results, st')
    | ((results, Some KeyboardInterrupt), st') =>
        (print "Caught CTRL-C. Returning what we have . . ." ;;
         mret results) st'
    | ((_, Some e), st') => (Raise e, st')
    end.

Definition process_search (cb_conn : CbConn) (query : string)
    (query_base : option string) : M (gset ResultTuple) :=
  λ st,
    match str_iadd query query_base with
    | Raise e => (Raise e, st)
    | Return query =>
        except_KeyboardInterrupt (search_try cb_conn query ∅) st
    end.

(** The filter of one field, line 65. *)
Definition field_query (search_field : string) (terms : list string)
  : string :=
  "(" +:+ Py.join " OR "
            (map (λ term, search_field +:+ ":" +:+ term) terms) +:+ ")".

(** Lines 64-72: the loop over the fields of one program. *)
Fixpoint nested_try (cb_conn : CbConn)
    (criteria : list (string * list string)) (query_base : option string)
    (results : gset ResultTuple) : Try :=
  match criteria with
  | [] => λ st, ((results, None), st)
  | (search_field, terms) :: criteria' => λ st,
      let query := field_query search_field terms in
      match str_iadd query query_base with
      | Raise e => ((results, Some e), st)
      | Return query =>
          match search_try cb_conn query results st with
          | ((results', None), st') =>
              nested_try cb_conn criteria' query_base results' st'
          | out => out
          end
      end
  end.

Definition nested_process_search (cb_conn : CbConn)
    (criteria : list (string * list string)) (query_base : option string)
  : M (gset ResultTuple) :=
  except_KeyboardInterrupt (nested_try cb_conn criteria query_base ∅).

(** ** main *)

(** The four criteria options form a required, mutually exclusive group:
    [parse_args] returns with exactly one of them set. *)
Inductive CriteriaArg : Type :=
| Deffile (p : string)
| Defdir (p : string)
| Query (q : string)
| Iocfile (p : string).

Record Args : Type := mkArgs {
  prefix : option string;
  profile : option string;
  days : option Z;
  minutes : option Z;
  criteria_arg : CriteriaArg;
  ioctype : option string
}.

Definition deffile (args : Args) : option string :=
  match criteria_arg args with Deffile p => Some p | _ => None end.
Definition defdir (args : Args) : option string :=
  match criteria_arg args with Defdir p => Some p | _ => None end.
Definition query (args : Args) : option string :=
  match criteria_arg args with Query q => Some q | _ => None end.
Definition iocfile (args : Args) : option string :=
  match criteria_arg args with Iocfile p => Some p | _ => None end.

(** A definition file once parsed: program name to criteria, criteria being
    field name to terms; both in iteration order. *)
Abbreviation Programs := (list (string * list (string * list string)))%type.

(** The file system and the libraries [main] calls. *)
Record World : Type := mkWorld {
  os_path_exists : string → bool;
  (** [os.walk(top)]: the (root, dirs, files) triples. *)
  os_walk : string → list (string * list string * list string);
  (** [file(p, 'rb')] then [json.load]: the parsed object, or the exception
      of the one that fails ([IOError], [ValueError]). *)
  json_load : string → result Programs;
  (** [open(p)] then [readlines()]: the lines, each with its line end. *)
  readlines : string → result (list string);
  (** [CbEnterpriseResponseAPI(profile=...)] or, for [None],
      [CbEnterpriseResponseAPI()]. *)
  CbEnterpriseResponseAPI : option string → CbConn
}.

Definition lift {A} (r : result A) : M A := λ st, (r, st).

(** [err(msg)], lines 30-35. *)
Definition err (msg : string) : M unit := λ st,
  (Return (), mkSt (queries st) (stdout st)
                   (stderr st ++ ["ERROR: " +:+ msg +:+ String "010" ""])
                   (csv_name st) (csv_rows st)).

(** Line 138, [file(output_filename, 'wb')], for an output file that can
    be opened.  (Where it cannot, line 138 raises [IOError] and the run ends
    there, before anything is written or sent.) *)
Definition open_csv (output_filename : string) : M unit := λ st,
  (Return (), mkSt (queries st) (stdout st) (stderr st)
                   (Some output_filename) []).

Definition writerow (row : list string) : M unit := λ st,
  (Return (), wrote [row] st).

Definition header : list string :=
  ["endpoint"; "username"; "process_path"; "cmdline"; "program"; "source"].

(** Lines 151, 163 and 182: the row of a tuple; byte strings are written as
    they are. *)
Definition row_of (program source : string) (r : ResultTuple)
  : list string :=
  let '(r0, r1, r2, r3) := r in [r0; r1; r2; r3; program; source].

(** [for r in result_set: ... writer.writerow(row)].  Python does not fix
    the order in which a set is iterated; [elements] stands for it, and no
    statement below depends on the order. *)
Definition write_rows (result_set : gset ResultTuple)
    (program source : string) : M unit :=
  for_each (elements result_set) (λ r, writerow (row_of program source r)).

(** Lines 117-121. *)
Definition time_window (days minutes : option Z) : string :=
  let query_base := "" in
  if Py.truthy_int days then
    query_base +:+ " start:-" +:+ Py.fmt_d (default 0 days * 1440) +:+ "m"
  else if Py.truthy_int minutes then
    query_base +:+ " start:-" +:+ Py.fmt_d (default 0 minutes) +:+ "m"
  else query_base.

(** Lines 123-136. *)
Definition find_definition_files (w : World) (args : Args)
  : M (list string) :=
  if Py.truthy_str (deffile args) then
    let p := default "" (deffile args) in
    if negb (os_path_exists w p) then
      err "deffile does not exist" ;; raise (SystemExit 1)
    else mret [p]
  else if Py.truthy_str (defdir args) then
    let p := default "" (defdir args) in
    if negb (os_path_exists w p) then
      err "defdir does not exist" ;; raise (SystemExit 1)
    else
      mret (flat_map
              (λ '(root, dirs, files),
                 map (Py.path_join root)
                     (filter (λ filename,
                                Is_true (Py.endswith filename ".json"))
                             files))
              (os_walk w p))
  else mret [].

(** Lines 176-184, for one program of a definition file. *)
Definition survey_program (cb : CbConn) (query_base source : string)
    (item : string * list (string * list string)) : M unit :=
  let '(program, criteria) := item in
  print ("--> " +:+ program) ;;
  result_set ← nested_process_search cb criteria (Some query_base) ;
  write_rows result_set program source.

(** Lines 167-184, for one definition file.  ([fh.close()] has no effect
    that the state records.) *)
Definition survey_definition_file (w : World) (cb : CbConn)
    (query_base : string) (definition_file : string) : M unit :=
  print ("Processing definition file: " +:+ definition_file) ;;
  let basename := Py.basename definition_file in
  let source := Py.splitext_root basename in
  programs ← lift (json_load w definition_file) ;
  for_each programs (survey_program cb query_base source).

(** Lines 155-165, for one line of the indicator file. *)
Definition survey_ioc (cb : CbConn) (ioctype : string)
    (query_base : string) (ioc : string) : M unit :=
  let ioc := Py.strip ioc in
  let query := ioctype +:+ ":" +:+ ioc in
  result_set ← process_search cb query (Some query_base) ;
  write_rows result_set ioc "ioc".

(** Lines 142-145, for credentials with which the API object can be built.
    (Where it cannot, the constructor raises and the run ends there, with
    the header written and nothing sent.) *)
Definition connection (w : World) (profile : option string) : CbConn :=
  if Py.truthy_str profile then CbEnterpriseResponseAPI w profile
  else CbEnterpriseResponseAPI w None.

(** Lines 112-115. *)
Definition output_filename (args : Args) : string :=
  if Py.truthy_str (prefix args)
  then default "" (prefix args) +:+ "-survey.csv"
  else "survey.csv".

(** [main], after [parse_args].  [parser.error] leaves with exit status 2;
    the usage text and the message it writes to standard error depend on
    the name the script is called by and are not recorded.  The closing of
    the output file has no effect that the state records. *)
Definition main (w : World) (args : Args) : M unit :=
  (if bool_decide (iocfile args ≠ None ∧ ioctype args = None)
   then raise (SystemExit 2) else mret ()) ;;
  let output_filename := output_filename args in
  let query_base := time_window (days args) (minutes args) in
  definition_files ← find_definition_files w args ;
  open_csv output_filename ;;
  writerow header ;;
  let cb := connection w (profile args) in
  if Py.truthy_str (query args) then
    let q := default "" (query args) in
    result_set ← process_search cb q (Some query_base) ;
    write_rows result_set q "query"
  else if Py.truthy_str (iocfile args) then
    data ← lift (readlines w (default "" (iocfile args))) ;
    for_each data (survey_ioc cb (default "None" (ioctype args)) query_base)
  else
    for_each definition_files (survey_definition_file w cb query_base).

(** The run of the script from the initial state. *)
Definition run (w : World) (args : Args) : result unit * St :=
  main w args St0.

(** ** Vocabulary of the statements *)

(** The answers of the connection to the filters [qs], sent one after the
    other once [h] has been sent. *)
Fixpoint responses (cb : CbConn) (h : list string) (qs : list string)
  : list Response :=
  match qs with
  | [] => []
  | q :: qs' => cb h q :: responses cb (h ++ [q]) qs'
  end.

(** All the processes a list of answers yields. *)
Definition yielded (rs : list Response) : list Process :=
  concat (map records rs).

(** The filter [main] sends for a field of a program. *)
Definition field_filter (query_base : string)
    (field : string * list string) : string :=
  field_query field.1 field.2 +:+ query_base.

(** The filter [main] sends for a line of the indicator file. *)
Definition ioc_filter (ioctype query_base line : string) : string :=
  (ioctype +:+ ":" +:+ Py.strip line) +:+ query_base.

(** An answer that lets the script go on: the search ends normally or is
    interrupted from the keyboard. *)
Definition goes_on (r : Response) : Prop :=
  finish r = None ∨ finish r = Some KeyboardInterrupt.

(** A line of whitespace only. *)
Fixpoint blank (s : string) : bool :=
  match s with
  | EmptyString => true
  | String c s' => Ascii.is_space c && blank s'
  end.

(** Two bytes that are the same letter A to Z in either case, or the same
    byte. *)
Definition is_upper (c : ascii) : bool :=
  ((65 <=? N_of_ascii c) && (N_of_ascii c <=? 90))%N.

Definition upper_of (c d : ascii) : bool :=
  is_upper c && (N_of_ascii d =? N_of_ascii c + 32)%N.

Definition same_letter (c d : ascii) : bool :=
  bool_decide (c = d) || upper_of c d || upper_of d c.

(** Two strings that differ at most in the case of letters A to Z. *)
Fixpoint same_up_to_case (s t : string) : bool :=
  match s, t with
  | EmptyString, EmptyString => true
  | String c s', String d t' => same_letter c d && same_up_to_case s' t'
  | _, _ => false
  end.

(** Two process documents that differ at most in the case of letters A to
    Z of hostname and username. *)
Definition differ_only_in_case (r1 r2 : Process) : Prop :=
  same_up_to_case (hostname r1) (hostname r2) = true ∧
  same_up_to_case (username r1) (username r2) = true ∧
  path r1 = path r2 ∧ cmdline r1 = cmdline r2.

(** The state once the interruption of a search has been reported. *)
Definition caught : St → St :=
  printed "Caught CTRL-C. Returning what we have . . .".

(** The state of [main] once the CSV file is open and holds its header. *)
Definition St_header (output_filename : string) : St :=
  mkSt [] [] [] (Some output_filename) [header].

(** A string of continuation bytes; a character as [Py.chars] cuts it (one
    byte and continuation bytes); a character that starts with a byte that
    is not a continuation byte. *)
Fixpoint all_cont (s : string) : bool :=
  match s with
  | EmptyString => true
  | String c s' => Py.is_cont c && all_cont s'
  end.

Definition unitb (u : string) : bool :=
  match u with
  | EmptyString => false
  | String _ r => all_cont r
  end.

Definition closed (u : string) : bool :=
  match u with
  | EmptyString => false
  | String c r => negb (Py.is_cont c) && all_cont r
  end.

(** The first byte of a string is below [0xC0]: the string is not the
    encoding of a character above [U+007F]. *)
Definition starts_low (u : string) : bool :=
  match u with
  | EmptyString => true
  | String c _ => (N_of_ascii c <? 192)%N
  end.

(** A string that holds a letter A to Z. *)
Fixpoint has_upper (s : string) : bool :=
  match s with
  | EmptyString => false
  | String c s' => is_upper c || has_upper s'
  end.

(** The search of one source followed by the writing of its rows, as [main]
    chains them at lines 148-153 and 160-165. *)
Definition search_and_write (cb : CbConn) (q : string) (qb : string)
    (program source : string) : M unit :=
  result_set ← process_search cb q (Some qb) ;
  write_rows result_set program source.

(** A string that holds the byte [c]. *)
Fixpoint has_char (c : ascii) (s : string) : bool :=
  match s with
  | EmptyString => false
  | String d s' => bool_decide (c = d) || has_char c s'
  end.

(** The state once [err msg] has written to standard error. *)
Definition erred (msg : string) (st : St) : St :=
  mkSt (queries st) (stdout st)
       (stderr st ++ ["ERROR: " +:+ msg +:+ String "010" ""])
       (csv_name st) (csv_rows st).

(** Lines 147-184 of [main]: the survey of the sources, once the
    definition files are known and the header is written. *)
Definition survey_sources (w : World) (args : Args)
    (definition_files : list string) : M unit :=
  let query_base := time_window (days args) (minutes args) in
  let cb := connection w (profile args) in
  if Py.truthy_str (query args) then
    let q := default "" (query args) in
    result_set ← process_search cb q (Some query_base) ;
    write_rows result_set q "query"
  else if Py.truthy_str (iocfile args) then
    data ← lift (readlines w (default "" (iocfile args))) ;
    for_each data (survey_ioc cb (default "None" (ioctype args)) query_base)
  else
    for_each definition_files (survey_definition_file w cb query_base).

(** What a part of the run may do to the filters sent and to the CSV file:
    send further filters, all of which satisfy [P], and append rows of six
    columns to the file, which stays the same file. *)
Definition grows (P : string → Prop) (st st' : St) : Prop :=
  (∃ qs, queries st' = queries st ++ qs ∧ Forall P qs) ∧
  csv_name st' = csv_name st ∧
  (∃ rows, csv_rows st' = csv_rows st ++ rows
           ∧ Forall (λ row, length row = 6%nat) rows).

(** A computation that, from every state, only does that, and that leaves
    with an exception only if the exception satisfies [E]. *)
Definition keeps (P : string → Prop) (E : exn → Prop) {A} (m : M A) : Prop :=
  ∀ st, grows P st (m st).2 ∧ ∀ e, (m st).1 = Raise e → E e.

(** ** Connections and process documents used in the examples *)

Module Fixtures.

Definition alice : Process :=
  mkProcess "WIN-1" "Alice" "C:\Tools\Evil.exe" "Evil.exe  -Run".
Definition alice_folded : Process :=
  mkProcess "win-1" "alice" "C:\Tools\Evil.exe" "Evil.exe  -Run".
Definition bob : Process :=
  mkProcess "srv-2" "bob" "/usr/bin/nc" "nc -l 4444".

(** The answer listed for a filter in a table, the empty answer for a
    filter that is not listed. *)
Fixpoint answer (table : list (string * Response)) (q : string)
  : Response :=
  match table with
  | [] => mkResponse [] None
  | (q', r) :: table' => if decide (q = q') then r else answer table' q
  end.

(** A connection that answers by table, whatever was sent before. *)
Definition cb_table (table : list (string * Response)) : CbConn :=
  λ _ q, answer table q.

(** A connection that finds nothing. *)
Definition cb_empty : CbConn := cb_table [].

(** A text line with its line end. *)
Definition line (s : string) : string := s +:+ String "010" "".

(** A world with no files and one connection. *)
Definition world (cb : CbConn) : World :=
  mkWorld (λ _, false) (λ _, []) (λ _, Raise IOError) (λ _, Raise IOError)
          (λ _, cb).

End Fixtures.

(** ** Sanity checks of the built-ins *)

Example lower_ex : Py.lower "WIN-1 Alice" = "win-1 alice".
Proof. reflexivity. Qed.
Example lower_latin_ex : Py.lower "École ÉTÉ Ÿ" = "école été ÿ".
Proof. by vm_compute. Qed.
Example lower_greek_ex :
  Py.lower "ΟΔΟΣ" = "οδοσ" ∧ Py.lower "οδος" = "οδος"
  ∧ Py.upper "οδος" = "ΟΔΟΣ".
Proof. repeat split; by vm_compute. Qed.
Example lower_other_ex :
  Py.lower "Иван İ KÅ" = "иван i kå" ∧ Py.upper "straße" = "STRAßE"
  ∧ Py.lower "ẞ" = "ß" ∧ Py.upper "ÿ" = "Ÿ".
Proof. repeat split; by vm_compute. Qed.
Example case_tables_ex :
  length Py.lower_table = 1003%nat ∧ length Py.upper_table = 1011%nat.
Proof. split; by vm_compute. Qed.
Example utf8_ex :
  Py.utf8 0x41 = "A" ∧ Py.utf8 0xE9 = "é" ∧ Py.utf8 0x20AC = "€"
  ∧ Py.chars "aé€" = ["a"; "é"; "€"].
Proof. repeat split; by vm_compute. Qed.
Example strip_ex : Py.strip (" 1.2.3.4 " +:+ String "010" "") = "1.2.3.4".
Proof. reflexivity. Qed.
Example basename_ex : Py.splitext_root (Py.basename "defs/a.b/chrome.json") = "chrome".
Proof. reflexivity. Qed.
Example splitext_ex : Py.splitext_root ".json" = ".json".
Proof. reflexivity. Qed.
Example splitext_ex2 : Py.splitext_root "a.d/..x" = "a.d/..x".
Proof. reflexivity. Qed.
Example join_ex : Py.path_join "defs" "x.json" = "defs/x.json".
Proof. reflexivity. Qed.
Example fmt_ex : Py.fmt_d (-1440) = "-1440".
Proof. reflexivity. Qed.
Example endswith_ex : Py.endswith "x.json" ".json" = true ∧ Py.endswith "json" ".json" = false.
Proof. split; reflexivity. Qed.

(** ** Basic facts about the monad and the state *)

Lemma sent_nil st : sent [] st = st.
Proof. destruct st; unfold sent; simpl. by rewrite app_nil_r. Qed.

Lemma sent_app qs1 qs2 st : sent qs2 (sent qs1 st) = sent (qs1 ++ qs2) st.
Proof. unfold sent; simpl. by rewrite app_assoc. Qed.

Lemma append_empty_r (s : string) : s +:+ "" = s.
Proof.
  induction s as [|c s IH]; [done|].
  unfold String.app in *; simpl. by rewrite IH.
Qed.

Lemma append_cons c (s t : string) : String c s +:+ t = String c (s +:+ t).
Proof. reflexivity. Qed.

Lemma append_assoc (s t u : string) : (s +:+ t) +:+ u = s +:+ (t +:+ u).
Proof.
  induction s as [|c s IH]; [done|]. by rewrite !append_cons, IH.
Qed.

Lemma add_all_app results l1 l2 :
  add_all results (l1 ++ l2) = add_all (add_all results l1) l2.
Proof. unfold add_all. apply foldl_app. Qed.

Lemma elem_of_add_all t results procs :
  t ∈ add_all results procs ↔
  t ∈ results ∨ ∃ proc, proc ∈ procs ∧ t = result_tuple proc.
Proof.
  revert results. induction procs as [|p procs IH]; intros results; simpl.
  - split; [by left|]. intros [? | (? & H & _)]; [done|]. by apply elem_of_nil in H.
  - rewrite IH, elem_of_union, elem_of_singleton. split.
    + intros [[? | ->] | (q & ? & ->)]; [by left|right..].
      * exists p. split; [left|done].
      * exists q. split; [by right|done].
    + intros [? | (q & Hq & ->)]; [by left; left|].
      apply elem_of_cons in Hq as [-> | ?]; [by left; right|].
      right. by exists q.
Qed.

(** ** The time window (lines 117-121) *)

(** C5, as the claim states it, fails when the day-count is zero: with
    [--days 0 --minutes 5] the minute-count wins, and with [--days 0] alone
    the window is empty, where the claim asks for [" start:-0m"]. *)
Lemma time_window_zero_days :
  time_window (Some 0) (Some 5) = " start:-5m" ∧
  time_window (Some 0) None = "" ∧
  " start:-" +:+ Py.fmt_d (0 * 1440) +:+ "m" = " start:-0m" ∧
  time_window (Some 0) (Some 5) ≠ " start:-0m" ∧
  time_window (Some 0) None ≠ " start:-0m".
Proof. repeat split; by vm_compute. Qed.

(** C5, amended: a non-zero day-count gives [" start:-<N>m"] with
    N = days * 1440, whatever the minute-count is; with the day-count absent
    or zero, a non-zero minute-count gives [" start:-<N>m"] with
    N = minutes; with both absent or zero the window is the empty string. *)
Theorem time_window_spec (days minutes : option Z) :
  (∀ d, days = Some d → d ≠ 0 →
     time_window days minutes
     = " start:-" +:+ Py.fmt_d (d * 1440) +:+ "m") ∧
  (∀ n, days = None ∨ days = Some 0 → minutes = Some n → n ≠ 0 →
     time_window days minutes = " start:-" +:+ Py.fmt_d n +:+ "m") ∧
  (days = None ∨ days = Some 0 → minutes = None ∨ minutes = Some 0 →
     time_window days minutes = "").
Proof.
  unfold time_window. split; [|split].
  - intros d -> Hd. simpl. by destruct (Z.eqb_spec d 0).
  - intros n Hdays -> Hn.
    destruct Hdays as [-> | ->]; simpl; by destruct (Z.eqb_spec n 0).
  - by intros [-> | ->] [-> | ->].
Qed.

Lemma time_window_spec_witness :
  time_window (Some 1) (Some 7) = " start:-1440m" ∧
  time_window None (Some 90) = " start:-90m" ∧
  time_window None None = "".
Proof.
  split; [|split].
  - apply (proj1 (time_window_spec (Some 1) (Some 7)) 1); [reflexivity|lia].
  - apply (proj1 (proj2 (time_window_spec None (Some 90))) 90);
      [by left|reflexivity|lia].
  - apply (proj2 (proj2 (time_window_spec None None))); by left.
Defined.

(** ** A missing [query_base] (lines 44 and 66) *)

(** C10: with [query_base] left at its default [None], [process_search]
    raises [TypeError] at [query += query_base] for every query, and so does
    [nested_process_search] at the first field of the criteria, in both
    cases before anything is sent to the server; the empty time window
    [main] passes is the empty string, with which the query goes out as it
    is. *)
Theorem query_base_None_TypeError :
  (∀ cb q st, process_search cb q None st = (Raise TypeError, st)) ∧
  (∀ cb field terms criteria st,
     nested_process_search cb ((field, terms) :: criteria) None st
     = (Raise TypeError, st)) ∧
  time_window None None = "" ∧
  (∀ cb q st,
     queries (process_search cb q (Some (time_window None None)) st).2
     = queries st ++ [q]).
Proof.
  repeat split.
  intros cb q st. unfold process_search; simpl.
  rewrite append_empty_r.
  unfold except_KeyboardInterrupt, search_try; simpl.
  destruct (finish (cb (queries st) q)) as [[]|]; reflexivity.
Qed.

(** Without any field there is no concatenation: the criteria [{}] give the
    empty set whatever [query_base] is. *)
Lemma nested_process_search_no_field cb query_base st :
  nested_process_search cb [] query_base st = (Return ∅, st).
Proof. reflexivity. Qed.

(** ** Case folding of hostname and username (lines 48-51, 69-72) *)

(** *** The characters of a text *)

Lemma unchars_chars s : Py.unchars (Py.chars s) = s.
Proof.
  induction s as [|c s IH]; [done|]. cbn [Py.chars].
  destruct (Py.chars s) as [|u us]; simpl in *.
  - by rewrite <- IH.
  - destruct (Py.starts_cont u); simpl; by rewrite <- IH.
Qed.

Lemma closed_unitb u : closed u = true → unitb u = true.
Proof. destruct u as [|c r]; [done|]. simpl. by intros [_ ?]%andb_true_iff. Qed.

Lemma closed_starts_cont u : closed u = true → Py.starts_cont u = false.
Proof.
  destruct u as [|c r]; [done|]. simpl.
  intros [Hc _]%andb_true_iff. by apply negb_true_iff.
Qed.

(** What [Py.chars] returns: a first character, then characters that start
    with a byte that is not a continuation byte. *)
Lemma chars_shape s :
  match Py.chars s with
  | [] => True
  | u :: us => unitb u = true ∧ Forall (λ u, closed u = true) us
  end.
Proof.
  induction s as [|c s IH]; [done|]. cbn [Py.chars].
  destruct (Py.chars s) as [|u us]; [by split|].
  destruct IH as [Hu Hus].
  destruct (Py.starts_cont u) eqn:Hstart.
  - split; [|done]. destruct u as [|d r]; [done|]. simpl in *.
    by rewrite Hstart, Hu.
  - split; [done|]. constructor; [|done].
    destruct u as [|d r]; [done|]. simpl in *. by rewrite Hstart, Hu.
Qed.

Lemma chars_units s : Forall (λ u, unitb u = true) (Py.chars s).
Proof.
  pose proof (chars_shape s) as Hshape.
  destruct (Py.chars s) as [|u us]; [constructor|].
  destruct Hshape as [Hu Hus]. constructor; [done|].
  eapply Forall_impl; [exact Hus|]. apply closed_unitb.
Qed.

Lemma chars_cons_unit us :
  Py.chars (Py.unchars us) = us → Forall (λ u, closed u = true) us →
  ∀ u, unitb u = true → Py.chars (u +:+ Py.unchars us) = u :: us.
Proof.
  intros Hus Hclosed [|c r]; [done|]. cbn [unitb]. revert c.
  induction r as [|d r IH]; intros c Hr; rewrite append_cons; cbn [Py.chars].
  - change ("" +:+ Py.unchars us) with (Py.unchars us). rewrite Hus.
    destruct Hclosed as [|u' us' Hu' _]; [done|].
    by rewrite (closed_starts_cont u' Hu').
  - cbn [all_cont] in Hr. apply andb_true_iff in Hr as [Hd Hr].
    rewrite (IH d Hr). cbn [Py.starts_cont]. by rewrite Hd.
Qed.

Lemma chars_unchars us :
  Forall (λ u, closed u = true) us → Py.chars (Py.unchars us) = us.
Proof.
  induction us as [|u us IH]; [done|].
  intros [Hu Hus]%Forall_cons. simpl.
  apply chars_cons_unit; [by apply IH | done | by apply closed_unitb].
Qed.

(** *** The tables *)

Lemma assoc_In table u v :
  Py.assoc table u = Some v → In (u, v) table.
Proof.
  induction table as [|[k v'] table IH]; [done|]. simpl.
  destruct (String.eqb_spec k u) as [->|_].
  - intros [= ->]. by left.
  - intros H. right. by apply IH.
Qed.

Lemma assoc_starts_low table u :
  forallb (λ kv, negb (starts_low kv.1)) table = true →
  starts_low u = true → Py.assoc table u = None.
Proof.
  intros Hkeys Hu. induction table as [|[k v] table IH]; [done|].
  simpl in *. apply andb_true_iff in Hkeys as [Hk Hkeys].
  destruct (String.eqb_spec k u) as [->|_].
  - by rewrite Hu in Hk.
  - by apply IH.
Qed.

Lemma assoc_not_closed table u :
  forallb (λ kv, closed kv.1) table = true →
  closed u = false → Py.assoc table u = None.
Proof.
  intros Hkeys Hu. induction table as [|[k v] table IH]; [done|].
  simpl in *. apply andb_true_iff in Hkeys as [Hk Hkeys].
  destruct (String.eqb_spec k u) as [->|_].
  - by rewrite Hu in Hk.
  - by apply IH.
Qed.

Lemma table_value (P : string → bool) table u v :
  forallb (λ kv, P kv.2) table = true →
  Py.assoc table u = Some v → P v = true.
Proof.
  intros Hall Hv. apply assoc_In in Hv.
  by apply (proj1 (forallb_forall _ _) Hall (u, v)).
Qed.

Lemma lower_table_keys_high :
  forallb (λ kv, negb (starts_low kv.1)) Py.lower_table = true.
Proof. by vm_compute. Qed.

Lemma lower_table_keys_closed :
  forallb (λ kv, closed kv.1) Py.lower_table = true.
Proof. by vm_compute. Qed.

Lemma lower_table_values_closed :
  forallb (λ kv, closed kv.2) Py.lower_table = true.
Proof. by vm_compute. Qed.

Lemma lower_table_values_fixed :
  forallb (λ kv, String.eqb (Py.lower_unit kv.2) kv.2) Py.lower_table = true.
Proof. by vm_compute. Qed.

Lemma lower_table_values_no_upper :
  forallb (λ kv, negb (has_upper kv.2)) Py.lower_table = true.
Proof. by vm_compute. Qed.

(** *** [Py.lower] character by character *)

Lemma is_cont_lower_char c : Py.is_cont (Py.lower_char c) = Py.is_cont c.
Proof.
  unfold Py.is_cont, Py.lower_char.
  destruct (N.leb_spec 65 (N_of_ascii c)) as [H65|H65];
    destruct (N.leb_spec (N_of_ascii c) 90) as [H90|H90]; simpl; try done.
  rewrite N_ascii_embedding by lia.
  destruct (N.leb_spec 128 (N_of_ascii c + 32)); [lia|].
  by destruct (N.leb_spec 128 (N_of_ascii c)); [lia|].
Qed.

Lemma starts_low_lower_char c r :
  starts_low (String (Py.lower_char c) r) = starts_low (String c r).
Proof.
  unfold starts_low, Py.lower_char.
  destruct (N.leb_spec 65 (N_of_ascii c)) as [H65|H65];
    destruct (N.leb_spec (N_of_ascii c) 90) as [H90|H90]; simpl; try done.
  rewrite N_ascii_embedding by lia.
  destruct (N.ltb_spec (N_of_ascii c + 32) 192); [|lia].
  by destruct (N.ltb_spec (N_of_ascii c) 192); [|lia].
Qed.

Lemma lower_char_idemp c : Py.lower_char (Py.lower_char c) = Py.lower_char c.
Proof.
  unfold Py.lower_char at 2 3.
  destruct (N.leb_spec 65 (N_of_ascii c)) as [H65|H65];
    destruct (N.leb_spec (N_of_ascii c) 90) as [H90|H90]; simpl;
    unfold Py.lower_char.
  - rewrite N_ascii_embedding by lia.
    destruct (N.leb_spec 65 (N_of_ascii c + 32)); [|lia].
    by destruct (N.leb_spec (N_of_ascii c + 32) 90); [lia|].
  - destruct (N.leb_spec 65 (N_of_ascii c)); [|lia].
    by destruct (N.leb_spec (N_of_ascii c) 90); [lia|].
  - by destruct (N.leb_spec 65 (N_of_ascii c)); [lia|].
  - by destruct (N.leb_spec 65 (N_of_ascii c)); [lia|].
Qed.

Lemma lower_unit_closed u : closed u = true → closed (Py.lower_unit u) = true.
Proof.
  intros Hu. unfold Py.lower_unit.
  destruct (Py.assoc Py.lower_table u) as [v|] eqn:Hv.
  - exact (table_value closed _ u v lower_table_values_closed Hv).
  - destruct u as [|c r]; [done|]. simpl in *. by rewrite is_cont_lower_char.
Qed.

Lemma lower_unit_unitb u : unitb u = true → unitb (Py.lower_unit u) = true.
Proof.
  intros Hu. unfold Py.lower_unit.
  destruct (Py.assoc Py.lower_table u) as [v|] eqn:Hv.
  - apply closed_unitb.
    exact (table_value closed _ u v lower_table_values_closed Hv).
  - by destruct u.
Qed.

Lemma lower_unit_idemp u : Py.lower_unit (Py.lower_unit u) = Py.lower_unit u.
Proof.
  unfold Py.lower_unit at 2 3.
  destruct (Py.assoc Py.lower_table u) as [v|] eqn:Hv.
  - apply String.eqb_eq.
    exact (table_value (λ v, String.eqb (Py.lower_unit v) v) _ u v
             lower_table_values_fixed Hv).
  - destruct u as [|c r]; [done|]. unfold Py.lower_unit.
    assert (Py.assoc Py.lower_table (String (Py.lower_char c) r) = None)
      as ->.
    { destruct (starts_low (String c r)) eqn:Hlow.
      - apply (assoc_starts_low _ _ lower_table_keys_high).
        by rewrite starts_low_lower_char.
      - assert (Py.lower_char c = c) as ->; [|done].
        unfold starts_low in Hlow. unfold Py.lower_char.
        apply N.ltb_ge in Hlow.
        by destruct (N.leb_spec (N_of_ascii c) 90);
          [lia | rewrite andb_false_r]. }
    by rewrite lower_char_idemp.
Qed.

Lemma chars_lower s : Py.chars (Py.lower s) = map Py.lower_unit (Py.chars s).
Proof.
  unfold Py.lower. pose proof (chars_shape s) as Hshape.
  destruct (Py.chars s) as [|u us]; [done|]. destruct Hshape as [Hu Hus].
  cbn [map Py.unchars fold_right].
  assert (Forall (λ u, closed u = true) (map Py.lower_unit us)) as Hclosed.
  { apply Forall_fmap. eapply Forall_impl; [exact Hus|].
    intros u'. apply lower_unit_closed. }
  apply chars_cons_unit;
    [by apply chars_unchars | done | by apply lower_unit_unitb].
Qed.

(** Lower-casing twice is lower-casing once. *)
Lemma lower_idemp s : Py.lower (Py.lower s) = Py.lower s.
Proof.
  unfold Py.lower at 1. rewrite chars_lower. unfold Py.lower.
  f_equal. rewrite map_map. apply map_ext. intros u. apply lower_unit_idemp.
Qed.

Lemma has_upper_append (s t : string) :
  has_upper (s +:+ t) = has_upper s || has_upper t.
Proof.
  induction s as [|c s IH]; [done|].
  rewrite append_cons. simpl. by rewrite IH, orb_assoc.
Qed.

Lemma is_cont_not_upper c : Py.is_cont c = true → is_upper c = false.
Proof.
  unfold Py.is_cont, is_upper. intros [H128 _]%andb_true_iff.
  apply N.leb_le in H128.
  by destruct (N.leb_spec (N_of_ascii c) 90); [lia | rewrite andb_false_r].
Qed.

Lemma all_cont_no_upper r : all_cont r = true → has_upper r = false.
Proof.
  induction r as [|c r IH]; [done|]. simpl.
  intros [Hc Hr]%andb_true_iff. by rewrite (is_cont_not_upper c Hc), IH.
Qed.

Lemma lower_char_not_upper c : is_upper (Py.lower_char c) = false.
Proof.
  unfold is_upper, Py.lower_char.
  destruct (N.leb_spec 65 (N_of_ascii c)) as [H65|H65];
    destruct (N.leb_spec (N_of_ascii c) 90) as [H90|H90]; simpl.
  - rewrite N_ascii_embedding by lia.
    destruct (N.leb_spec (N_of_ascii c + 32) 90); [lia|].
    by rewrite andb_false_r.
  - destruct (N.leb_spec 65 (N_of_ascii c)); [|lia].
    by destruct (N.leb_spec (N_of_ascii c) 90); [lia|].
  - by destruct (N.leb_spec 65 (N_of_ascii c)); [lia|].
  - by destruct (N.leb_spec 65 (N_of_ascii c)); [lia|].
Qed.

Lemma lower_unit_no_upper u :
  unitb u = true → has_upper (Py.lower_unit u) = false.
Proof.
  intros Hu. unfold Py.lower_unit.
  destruct (Py.assoc Py.lower_table u) as [v|] eqn:Hv.
  - apply negb_true_iff.
    exact (table_value (λ v, negb (has_upper v)) _ u v
             lower_table_values_no_upper Hv).
  - destruct u as [|c r]; [done|]. simpl in *.
    by rewrite lower_char_not_upper, all_cont_no_upper.
Qed.

(** No letter A to Z is left in a lower-cased text. *)
Lemma lower_no_upper s : has_upper (Py.lower s) = false.
Proof.
  unfold Py.lower. pose proof (chars_units s) as Hunits.
  induction Hunits as [|u us Hu _ IH]; [done|].
  cbn [map Py.unchars fold_right].
  rewrite has_upper_append, (lower_unit_no_upper u Hu). exact IH.
Qed.

(** *** Texts that differ in the case of letters A to Z *)

Lemma lower_char_same_letter c d :
  same_letter c d = true → Py.lower_char c = Py.lower_char d.
Proof.
  unfold same_letter, upper_of, is_upper, Py.lower_char.
  rewrite !orb_true_iff, !andb_true_iff, bool_decide_eq_true.
  intros [[-> | [[Hc1 Hc2] Hd]] | [[Hd1 Hd2] Hc]]; [done|..].
  - apply N.eqb_eq in Hd. rewrite Hc1, Hc2; simpl.
    rewrite <- Hd, ascii_N_embedding.
    apply N.leb_le in Hc1, Hc2.
    destruct (N.leb_spec 65 (N_of_ascii d)), (N.leb_spec (N_of_ascii d) 90);
      simpl; try done; lia.
  - apply N.eqb_eq in Hc. rewrite Hd1, Hd2; simpl.
    rewrite <- Hc, ascii_N_embedding.
    apply N.leb_le in Hd1, Hd2.
    destruct (N.leb_spec 65 (N_of_ascii c)), (N.leb_spec (N_of_ascii c) 90);
      simpl; try done; lia.
Qed.

(** Two bytes of the same letter are both below [0x80], or are equal. *)
Lemma same_letter_cases c d :
  same_letter c d = true →
  c = d ∨ ((N_of_ascii c < 128)%N ∧ (N_of_ascii d < 128)%N).
Proof.
  unfold same_letter, upper_of, is_upper.
  rewrite !orb_true_iff, !andb_true_iff, bool_decide_eq_true.
  intros [[-> | [[Hc1 Hc2] Hd]] | [[Hd1 Hd2] Hc]].
  - by left.
  - right. apply N.leb_le in Hc1, Hc2. apply N.eqb_eq in Hd. lia.
  - right. apply N.leb_le in Hd1, Hd2. apply N.eqb_eq in Hc. lia.
Qed.

Lemma same_letter_cont c d :
  same_letter c d = true → Py.is_cont c = Py.is_cont d.
Proof.
  intros [-> | [Hc Hd]]%same_letter_cases; [done|].
  unfold Py.is_cont.
  destruct (N.leb_spec 128 (N_of_ascii c)); [lia|].
  by destruct (N.leb_spec 128 (N_of_ascii d)); [lia|].
Qed.

Lemma same_up_to_case_cont r r' :
  all_cont r = true → same_up_to_case r r' = true → r = r'.
Proof.
  revert r'. induction r as [|c r IH]; intros [|d r']; simpl; try done.
  intros [Hc Hr]%andb_true_iff [Hcd Hrr]%andb_true_iff.
  rewrite (IH r' Hr Hrr). f_equal.
  destruct (same_letter_cases c d Hcd) as [-> | [Hlow _]]; [done|].
  unfold Py.is_cont in Hc. apply andb_true_iff in Hc as [Hc _].
  apply N.leb_le in Hc. lia.
Qed.

Lemma lower_unit_same_up_to_case u u' :
  unitb u = true → same_up_to_case u u' = true →
  Py.lower_unit u = Py.lower_unit u'.
Proof.
  destruct u as [|c r], u' as [|d r']; simpl; try done.
  intros Hr [Hcd Hrr]%andb_true_iff.
  rewrite <- (same_up_to_case_cont r r' Hr Hrr).
  destruct (same_letter_cases c d Hcd) as [-> | [Hc Hd]]; [done|].
  unfold Py.lower_unit.
  rewrite !(assoc_starts_low _ _ lower_table_keys_high)
    by (unfold starts_low; apply N.ltb_lt; lia).
  by rewrite (lower_char_same_letter c d Hcd).
Qed.

Lemma chars_same_up_to_case s : ∀ t,
  same_up_to_case s t = true →
  Forall2 (λ u u', same_up_to_case u u' = true) (Py.chars s) (Py.chars t).
Proof.
  induction s as [|c s IH]; intros [|d t]; cbn [same_up_to_case Py.chars];
    try done; try (by constructor).
  intros [Hcd Hst]%andb_true_iff. specialize (IH t Hst).
  destruct IH as [|u u' us us' Hu Hus].
  - repeat constructor. simpl. by rewrite Hcd.
  - assert (Py.starts_cont u = Py.starts_cont u') as <-.
    { destruct u as [|a r], u' as [|b r']; simpl in *; try done.
      apply andb_true_iff in Hu as [Hab _]. by apply same_letter_cont. }
    destruct (Py.starts_cont u).
    + constructor; [|done]. simpl. by rewrite Hcd, Hu.
    + constructor; [simpl; by rewrite Hcd|]. by constructor.
Qed.

Lemma lower_same_up_to_case s t :
  same_up_to_case s t = true → Py.lower s = Py.lower t.
Proof.
  intros Hst. unfold Py.lower. f_equal.
  pose proof (chars_units s) as Hunits.
  pose proof (chars_same_up_to_case s t Hst) as Hrel.
  induction Hrel as [|u u' us us' Hu _ IH]; [done|].
  apply Forall_cons in Hunits as [Hunit Hunits]. cbn [map].
  by rewrite (lower_unit_same_up_to_case u u' Hunit Hu), (IH Hunits).
Qed.

(** *** The claim *)

(** C6, as the claim states it, fails for letters whose upper-case form does
    not lower-case back to them.  The second record below is the first with
    its username in upper case ([ς] is the final sigma, whose capital is
    [Σ]), so the two differ only in letter case; but [Σ] lower-cases to
    [σ], the two tuples differ and the set keeps both.  The same happens
    with the dotless [ı], whose capital [I] lower-cases to [i]. *)
Lemma upper_cased_record_kept_apart :
  let r1 := mkProcess "srv-2" "οδος" "/usr/bin/nc" "nc -l 4444" in
  let r2 := mkProcess "srv-2" "ΟΔΟΣ" "/usr/bin/nc" "nc -l 4444" in
  hostname r2 = hostname r1 ∧ username r2 = Py.upper (username r1) ∧
  path r2 = path r1 ∧ cmdline r2 = cmdline r1 ∧
  result_tuple r1 = ("srv-2", "οδος", "/usr/bin/nc", "nc -l 4444") ∧
  result_tuple r2 = ("srv-2", "οδοσ", "/usr/bin/nc", "nc -l 4444") ∧
  result_tuple r1 ≠ result_tuple r2 ∧
  length (elements (add_all ∅ [r1; r2])) = 2%nat ∧
  Py.upper "ırmak" = "IRMAK" ∧ Py.lower "IRMAK" = "irmak" ∧
  Py.lower "ırmak" = "ırmak".
Proof. repeat split; by vm_compute. Qed.

(** C6, amended: two process documents give the same tuple exactly when
    their hostnames have the same lower-case form, their usernames have the
    same lower-case form, and their paths and command lines are equal byte
    for byte.  This is the case when they differ only in the case of
    letters A to Z, and when hostname and username of the one are the
    lower-cased hostname and username of the other; a search that yields
    two such documents returns a set of one element.  The tuple holds the
    lower-cased hostname and username, and path and cmdline unchanged. *)
Theorem case_folded_dedup (r1 r2 : Process) :
  (result_tuple r1 = result_tuple r2 ↔
     Py.lower (hostname r1) = Py.lower (hostname r2) ∧
     Py.lower (username r1) = Py.lower (username r2) ∧
     path r1 = path r2 ∧ cmdline r1 = cmdline r2) ∧
  (differ_only_in_case r1 r2 → result_tuple r1 = result_tuple r2) ∧
  (hostname r2 = Py.lower (hostname r1) →
   username r2 = Py.lower (username r1) →
   path r2 = path r1 → cmdline r2 = cmdline r1 →
   result_tuple r1 = result_tuple r2) ∧
  (result_tuple r1 = result_tuple r2 →
   elements (add_all ∅ [r1; r2])
   = [(Py.lower (hostname r1), Py.lower (username r1), path r1,
       cmdline r1)] ∧
   ∀ cb q qb st,
     cb (queries st) (q +:+ qb) = mkResponse [r1; r2] None →
     ∃ result_set,
       (process_search cb q (Some qb) st).1 = Return result_set ∧
       elements result_set
       = [(Py.lower (hostname r1), Py.lower (username r1), path r1,
           cmdline r1)]) ∧
  result_tuple r1
  = (Py.lower (hostname r1), Py.lower (username r1), path r1, cmdline r1).
Proof.
  split; [|split; [|split; [|split]]].
  - unfold result_tuple. split.
    + by intros [= -> -> -> ->].
    + by intros (-> & -> & -> & ->).
  - intros (Hh & Hu & Hp & Hc). unfold result_tuple.
    by rewrite (lower_same_up_to_case _ _ Hh), (lower_same_up_to_case _ _ Hu),
      Hp, Hc.
  - intros Hh Hu Hp Hc. unfold result_tuple.
    by rewrite Hh, Hu, Hp, Hc, !lower_idemp.
  - intros Heq.
    assert (add_all ∅ [r1; r2] = ({[ result_tuple r1 ]} : gset ResultTuple))
      as Hset.
    { unfold add_all; simpl. rewrite <- Heq.
      by rewrite (left_id_L ∅ (∪)), (idemp_L (∪)). }
    split.
    + rewrite Hset. apply elements_singleton.
    + intros cb q qb st Hresp. exists {[ result_tuple r1 ]}.
      split; [|apply elements_singleton].
      unfold process_search, except_KeyboardInterrupt, search_try; simpl.
      rewrite Hresp; simpl. f_equal. exact Hset.
  - reflexivity.
Qed.

Lemma case_folded_dedup_witness :
  let r1 := mkProcess "WIN-1" "Élodie" "C:\Tools\Evil.exe" "Evil.exe  -Run" in
  let r2 := mkProcess "win-1" "éLODIE" "C:\Tools\Evil.exe" "Evil.exe  -Run" in
  differ_only_in_case Fixtures.alice Fixtures.alice_folded ∧
  result_tuple Fixtures.alice = result_tuple Fixtures.alice_folded ∧
  elements (add_all ∅ [r1; r2])
  = [("win-1", "élodie", "C:\Tools\Evil.exe", "Evil.exe  -Run")].
Proof.
  intros r1 r2.
  assert (differ_only_in_case Fixtures.alice Fixtures.alice_folded) as Hcase
    by (repeat split; reflexivity).
  split; [exact Hcase|]. split.
  - exact (proj1 (proj2 (case_folded_dedup _ _)) Hcase).
  - assert (result_tuple r1 = result_tuple r2) as Heq.
    { apply (proj1 (case_folded_dedup r1 r2)). repeat split; by vm_compute. }
    rewrite (proj1 (proj1 (proj2 (proj2 (proj2 (case_folded_dedup r1 r2))))
                      Heq)).
    by vm_compute.
Defined.

(** ** The two search functions *)

Lemma search_try_eq cb q results st :
  search_try cb q results st
  = ((add_all results (records (cb (queries st) q)),
      finish (cb (queries st) q)), sent [q] st).
Proof. reflexivity. Qed.

Lemma process_search_eq cb q qb st :
  process_search cb q (Some qb) st
  = except_KeyboardInterrupt (search_try cb (q +:+ qb) ∅) st.
Proof. reflexivity. Qed.

Lemma nested_try_cons cb qb field criteria results st :
  nested_try cb (field :: criteria) (Some qb) results st
  = match finish (cb (queries st) (field_filter qb field)) with
    | None =>
        nested_try cb criteria (Some qb)
          (add_all results (records (cb (queries st) (field_filter qb field))))
          (sent [field_filter qb field] st)
    | Some e =>
        ((add_all results (records (cb (queries st) (field_filter qb field))),
          Some e), sent [field_filter qb field] st)
    end.
Proof.
  destruct field as [f terms]. unfold field_filter.
  cbn [nested_try str_iadd fst snd]. rewrite search_try_eq.
  by destruct (finish (cb (queries st) (field_query f terms +:+ qb))).
Qed.

(** As long as the searches end normally the loop goes on to the next
    field, with the tuples of all the processes yielded so far. *)
Lemma nested_try_app cb qb pre rest : ∀ results st,
  Forall (λ r, finish r = None)
         (responses cb (queries st) (map (field_filter qb) pre)) →
  nested_try cb (pre ++ rest) (Some qb) results st
  = nested_try cb rest (Some qb)
      (add_all results
         (yielded (responses cb (queries st) (map (field_filter qb) pre))))
      (sent (map (field_filter qb) pre) st).
Proof.
  induction pre as [|field pre IH]; intros results st Hfin.
  - simpl. by rewrite sent_nil.
  - cbn [map responses] in Hfin. apply Forall_cons in Hfin as [Hhd Htl].
    rewrite <- app_comm_cons, nested_try_cons, Hhd.
    rewrite IH by exact Htl.
    cbn [map responses]. unfold yielded. cbn [map concat].
    rewrite add_all_app, sent_app. reflexivity.
Qed.

(** Whatever happens, the loop has sent a prefix of the filters of the
    fields, and its set holds the tuples of the processes yielded for
    them. *)
Lemma nested_try_sent cb qb criteria : ∀ results st,
  ∃ qs, qs `prefix_of` map (field_filter qb) criteria ∧
    (nested_try cb criteria (Some qb) results st).2 = sent qs st ∧
    (nested_try cb criteria (Some qb) results st).1.1
    = add_all results (yielded (responses cb (queries st) qs)).
Proof.
  induction criteria as [|field criteria IH]; intros results st.
  - exists []. simpl. by rewrite sent_nil.
  - rewrite nested_try_cons.
    destruct (finish (cb (queries st) (field_filter qb field))) as [e|].
    + exists [field_filter qb field]. split; [|split].
      * cbn [map]. apply prefix_cons, prefix_nil.
      * reflexivity.
      * simpl. unfold yielded; simpl. by rewrite app_nil_r.
    + destruct (IH (add_all results
                      (records (cb (queries st) (field_filter qb field))))
                   (sent [field_filter qb field] st)) as (qs & Hpre & Hst & Hres).
      exists (field_filter qb field :: qs). split; [|split].
      * cbn [map]. by apply prefix_cons.
      * rewrite Hst. apply sent_app.
      * rewrite Hres. cbn [responses]. unfold yielded. cbn [map concat].
        by rewrite add_all_app.
Qed.

Lemma elem_of_add_all_fields (procs : list Process) h u p c :
  (h, u, p, c) ∈ add_all ∅ procs ↔
  ∃ proc, proc ∈ procs ∧ h = Py.lower (hostname proc)
          ∧ u = Py.lower (username proc) ∧ p = path proc
          ∧ c = cmdline proc.
Proof.
  rewrite elem_of_add_all. unfold result_tuple. split.
  - intros [Hin | (proc & Hproc & [= -> -> -> ->])];
      [by apply not_elem_of_empty in Hin|].
    by exists proc.
  - intros (proc & Hproc & -> & -> & -> & ->). right. by exists proc.
Qed.

Lemma responses_snoc cb h qs q :
  responses cb h (qs ++ [q]) = responses cb h qs ++ [cb (h ++ qs) q].
Proof.
  revert h. induction qs as [|q' qs IH]; intros h; simpl.
  - by rewrite app_nil_r.
  - by rewrite IH, <- app_assoc.
Qed.

Lemma nested_process_search_interrupted cb qb pre field post st :
  Forall (λ r, finish r = None)
         (responses cb (queries st) (map (field_filter qb) pre)) →
  finish (cb (queries st ++ map (field_filter qb) pre)
             (field_filter qb field)) = Some KeyboardInterrupt →
  nested_process_search cb (pre ++ field :: post) (Some qb) st
  = (Return
       (add_all ∅
          (yielded (responses cb (queries st)
                      (map (field_filter qb) (pre ++ [field]))))),
     caught (sent (map (field_filter qb) (pre ++ [field])) st)).
Proof.
  intros Hpre Hint.
  unfold nested_process_search, except_KeyboardInterrupt.
  rewrite nested_try_app by exact Hpre.
  rewrite nested_try_cons. cbn [sent queries]. rewrite Hint.
  rewrite sent_app, <- add_all_app, map_app. cbn [map].
  rewrite responses_snoc. unfold yielded.
  rewrite map_app, concat_app. simpl. rewrite app_nil_r. reflexivity.
Qed.

(** C7: when [KeyboardInterrupt] is raised during a search, the function
    returns, without raising, a set that holds exactly the tuples (hostname
    and username lower-cased, path, cmdline) of the processes consumed up
    to that point: [process_search] those of its one search;
    [nested_process_search] those of the fields searched before and of the
    interrupted search, and it sends no filter for the fields that
    follow. *)
Theorem interrupt_returns_partial_results :
  (∀ cb q qb st,
     finish (cb (queries st) (q +:+ qb)) = Some KeyboardInterrupt →
     ∃ result_set,
       process_search cb q (Some qb) st
       = (Return result_set, caught (sent [q +:+ qb] st)) ∧
       ∀ h u p c, (h, u, p, c) ∈ result_set ↔
         ∃ proc, proc ∈ records (cb (queries st) (q +:+ qb))
                 ∧ h = Py.lower (hostname proc)
                 ∧ u = Py.lower (username proc)
                 ∧ p = path proc ∧ c = cmdline proc) ∧
  (∀ cb qb pre field post st,
     Forall (λ r, finish r = None)
            (responses cb (queries st) (map (field_filter qb) pre)) →
     finish (cb (queries st ++ map (field_filter qb) pre)
                (field_filter qb field)) = Some KeyboardInterrupt →
     ∃ result_set,
       nested_process_search cb (pre ++ field :: post) (Some qb) st
       = (Return result_set,
          caught (sent (map (field_filter qb) (pre ++ [field])) st)) ∧
       ∀ h u p c, (h, u, p, c) ∈ result_set ↔
         ∃ proc, proc ∈ yielded (responses cb (queries st)
                                   (map (field_filter qb) (pre ++ [field])))
                 ∧ h = Py.lower (hostname proc)
                 ∧ u = Py.lower (username proc)
                 ∧ p = path proc ∧ c = cmdline proc).
Proof.
  split.
  - intros cb q qb st Hint. eexists. split.
    + rewrite process_search_eq. unfold except_KeyboardInterrupt.
      rewrite search_try_eq, Hint. reflexivity.
    + apply elem_of_add_all_fields.
  - intros cb qb pre field post st Hpre Hint. eexists. split.
    + by apply nested_process_search_interrupted.
    + apply elem_of_add_all_fields.
Qed.

Lemma interrupt_returns_partial_results_witness :
  let cb := Fixtures.cb_table
              [("md5:abc start:-5m",
                mkResponse [Fixtures.alice; Fixtures.alice_folded]
                           (Some KeyboardInterrupt))] in
  ∃ result_set,
    process_search cb "md5:abc" (Some " start:-5m") St0
    = (Return result_set, caught (sent ["md5:abc start:-5m"] St0)) ∧
    ∀ h u p c, (h, u, p, c) ∈ result_set ↔
      (h, u, p, c) = ("win-1", "alice", "C:\Tools\Evil.exe", "Evil.exe  -Run").
Proof.
  intros cb.
  destruct (proj1 interrupt_returns_partial_results cb "md5:abc" " start:-5m"
              St0 eq_refl) as (result_set & Hrun & Hset).
  exists result_set. split; [exact Hrun|].
  intros h u p c. rewrite Hset.
  change (records (cb (queries St0) ("md5:abc" +:+ " start:-5m")))
    with [Fixtures.alice; Fixtures.alice_folded].
  split.
  - intros (proc & Hproc & -> & -> & -> & ->).
    apply elem_of_cons in Hproc as [-> | Hproc]; [by vm_compute|].
    apply list_elem_of_singleton in Hproc as ->. by vm_compute.
  - intros [= -> -> -> ->]. exists Fixtures.alice.
    split; [by left|]. repeat split; by vm_compute.
Defined.

(** ** One search per field (lines 64-68) *)

(** C1, as the claim states it, fails: for the criteria
    [{f1: [a, b], f2: [c]}] two filters are sent, one per field, and not the
    single filter ["(f1:a OR f1:b) (f2:c) start:-60m"]. *)
Lemma one_filter_per_program_fails :
  queries (nested_process_search Fixtures.cb_empty
             [("f1", ["a"; "b"]); ("f2", ["c"])] (Some " start:-60m")
             St0).2
  = ["(f1:a OR f1:b) start:-60m"; "(f2:c) start:-60m"] ∧
  queries (nested_process_search Fixtures.cb_empty
             [("f1", ["a"; "b"]); ("f2", ["c"])] (Some " start:-60m")
             St0).2
  ≠ ["(f1:a OR f1:b) (f2:c) start:-60m"].
Proof. split; by vm_compute. Qed.

Lemma except_KeyboardInterrupt_queries (body : Try) st :
  queries (except_KeyboardInterrupt body st).2 = queries (body st).2.
Proof.
  unfold except_KeyboardInterrupt.
  destruct (body st) as [[results [[]|]] st']; reflexivity.
Qed.

(** The filter of a field is sent once the searches of the fields before it
    have ended normally. *)
Lemma nested_sends_field cb qb pre field post st :
  Forall (λ r, finish r = None)
         (responses cb (queries st) (map (field_filter qb) pre)) →
  (queries st ++ map (field_filter qb) (pre ++ [field]))
  `prefix_of`
  queries (nested_process_search cb (pre ++ field :: post) (Some qb) st).2.
Proof.
  intros Hpre. unfold nested_process_search.
  rewrite except_KeyboardInterrupt_queries.
  rewrite nested_try_app by exact Hpre. rewrite nested_try_cons.
  rewrite map_app, app_assoc. cbn [map].
  destruct (finish _) as [e|].
  - cbn [snd sent queries]. done.
  - match goal with
    | |- context [nested_try cb post (Some qb) ?rs ?st1] =>
        destruct (nested_try_sent cb qb post rs st1) as (qs & _ & -> & _)
    end.
    cbn [sent queries]. by eexists.
Qed.

(** C1, amended: for every field of a program's criteria, in iteration
    order, one filter is sent as a search of its own: the field's terms,
    each written [field:term], joined by [" OR "], in parentheses, followed
    by the time window.  A field's filter is sent as soon as the searches
    of the fields before it have ended normally, and nothing but such
    filters is sent.  When every search ends normally the result is the
    set of exactly the tuples (hostname and username lower-cased, path,
    cmdline) of the processes yielded by all these searches. *)
Theorem one_search_per_field cb qb criteria st :
  (∀ pre field post,
     criteria = pre ++ field :: post →
     Forall (λ r, finish r = None)
            (responses cb (queries st) (map (field_filter qb) pre)) →
     (queries st ++ map (field_filter qb) (pre ++ [field]))
     `prefix_of`
     queries (nested_process_search cb criteria (Some qb) st).2) ∧
  (∃ qs, qs `prefix_of` map (field_filter qb) criteria ∧
         queries (nested_process_search cb criteria (Some qb) st).2
         = queries st ++ qs) ∧
  (Forall (λ r, finish r = None)
          (responses cb (queries st) (map (field_filter qb) criteria)) →
   ∃ result_set,
     nested_process_search cb criteria (Some qb) st
     = (Return result_set, sent (map (field_filter qb) criteria) st) ∧
     ∀ h u p c, (h, u, p, c) ∈ result_set ↔
       ∃ proc, proc ∈ yielded (responses cb (queries st)
                                 (map (field_filter qb) criteria))
               ∧ h = Py.lower (hostname proc)
               ∧ u = Py.lower (username proc)
               ∧ p = path proc ∧ c = cmdline proc) ∧
  (∀ f terms,
     field_filter qb (f, terms)
     = ("(" +:+ Py.join " OR " (map (λ term, f +:+ ":" +:+ term) terms)
            +:+ ")") +:+ qb) ∧
  (∀ f1 a b f2 c,
     map (field_filter qb) [(f1, [a; b]); (f2, [c])]
     = [ ("(" +:+ ((f1 +:+ ":" +:+ a) +:+ " OR " +:+ (f1 +:+ ":" +:+ b))
              +:+ ")") +:+ qb;
         ("(" +:+ (f2 +:+ ":" +:+ c) +:+ ")") +:+ qb ]).
Proof.
  split; [|split; [|split; [|split; reflexivity]]].
  - intros pre field post -> Hpre. by apply nested_sends_field.
  - unfold nested_process_search. rewrite except_KeyboardInterrupt_queries.
    destruct (nested_try_sent cb qb criteria ∅ st) as (qs & Hpre & -> & _).
    by exists qs.
  - intros Hfin. eexists. split.
    + unfold nested_process_search, except_KeyboardInterrupt.
      rewrite <- (app_nil_r criteria) at 1.
      rewrite nested_try_app by exact Hfin. reflexivity.
    + apply elem_of_add_all_fields.
Qed.

Lemma one_search_per_field_witness :
  let cb := Fixtures.cb_table
              [("(f1:a OR f1:b) start:-60m", mkResponse [Fixtures.alice] None);
               ("(f2:c) start:-60m", mkResponse [Fixtures.bob] None)] in
  ∃ result_set,
    nested_process_search cb [("f1", ["a"; "b"]); ("f2", ["c"])]
      (Some " start:-60m") St0
    = (Return result_set,
       sent ["(f1:a OR f1:b) start:-60m"; "(f2:c) start:-60m"] St0) ∧
    ∀ h u p c, (h, u, p, c) ∈ result_set ↔
      (h, u, p, c) = ("win-1", "alice", "C:\Tools\Evil.exe", "Evil.exe  -Run")
      ∨ (h, u, p, c) = ("srv-2", "bob", "/usr/bin/nc", "nc -l 4444").
Proof.
  intros cb.
  destruct (proj1 (proj2 (proj2
              (one_search_per_field cb " start:-60m"
                 [("f1", ["a"; "b"]); ("f2", ["c"])] St0)))
              ltac:(repeat constructor)) as (result_set & Hrun & Hset).
  exists result_set. split; [exact Hrun|].
  intros h u p c. rewrite Hset.
  change (yielded _) with [Fixtures.alice; Fixtures.bob].
  split.
  - intros (proc & Hproc & -> & -> & -> & ->).
    apply elem_of_cons in Hproc as [-> | Hproc]; [left; by vm_compute|].
    apply list_elem_of_singleton in Hproc as ->. right. by vm_compute.
  - intros [[= -> -> -> ->] | [= -> -> -> ->]].
    + exists Fixtures.alice. split; [by left|]. repeat split; by vm_compute.
    + exists Fixtures.bob.
      split; [right; by left|]. repeat split; by vm_compute.
Defined.

(** ** From the server's answer to the rows (lines 147-153, 160-165, 179-184) *)

Lemma wrote_nil st : wrote [] st = st.
Proof. destruct st; unfold wrote; simpl. by rewrite app_nil_r. Qed.

Lemma wrote_app rows1 rows2 st :
  wrote rows2 (wrote rows1 st) = wrote (rows1 ++ rows2) st.
Proof. unfold wrote; simpl. by rewrite app_assoc. Qed.

Lemma write_rows_eq result_set program source st :
  write_rows result_set program source st
  = (Return (), wrote (map (row_of program source) (elements result_set)) st).
Proof.
  unfold write_rows. revert st.
  induction (elements result_set) as [|r l IH]; intros st.
  - simpl. by rewrite wrote_nil.
  - cbn [for_each map]. unfold mbind, M_bind, writerow. cbv beta iota.
    fold (wrote [row_of program source r] st).
    rewrite IH, wrote_app. reflexivity.
Qed.

Global Instance row_of_inj program source : Inj (=) (=) (row_of program source).
Proof. intros [[[a b] c] d] [[[a' b'] c'] d']; simpl. congruence. Qed.

Lemma rows_NoDup (result_set : gset ResultTuple) program source :
  NoDup (map (row_of program source) (elements result_set)).
Proof. apply (NoDup_fmap_2 _), NoDup_elements. Qed.

Lemma except_KeyboardInterrupt_cases (body : Try) st :
  match (body st).1.2 with
  | None => except_KeyboardInterrupt body st = (Return (body st).1.1, (body st).2)
  | Some KeyboardInterrupt =>
      except_KeyboardInterrupt body st
      = (Return (body st).1.1, caught (body st).2)
  | Some e => except_KeyboardInterrupt body st = (Raise e, (body st).2)
  end.
Proof.
  unfold except_KeyboardInterrupt.
  destruct (body st) as [[results [[]|]] st']; reflexivity.
Qed.

Lemma rows_from_processes (result_set : gset ResultTuple)
    (procs : list Process) program source :
  (∀ t, t ∈ result_set → ∃ proc, proc ∈ procs ∧ t = result_tuple proc) →
  ∀ row, row ∈ map (row_of program source) (elements result_set) →
    ∃ proc, proc ∈ procs ∧ row = row_of program source (result_tuple proc).
Proof.
  intros Hset row Hrow.
  apply list_elem_of_fmap in Hrow as (t & -> & Ht).
  apply elem_of_elements, Hset in Ht as (proc & Hproc & ->).
  by exists proc.
Qed.

Lemma add_all_empty_from t (procs : list Process) :
  t ∈ add_all ∅ procs → ∃ proc, proc ∈ procs ∧ t = result_tuple proc.
Proof.
  rewrite elem_of_add_all. intros [Hin | H]; [|done].
  by apply not_elem_of_empty in Hin.
Qed.

Lemma rows_of_add_all program source (procs : list Process) row :
  row ∈ map (row_of program source) (elements (add_all ∅ procs)) ↔
  ∃ proc, proc ∈ procs ∧
    row = [Py.lower (hostname proc); Py.lower (username proc); path proc;
           cmdline proc; program; source].
Proof.
  rewrite list_elem_of_fmap. split.
  - intros (t & -> & Ht).
    apply elem_of_elements, add_all_empty_from in Ht as (proc & Hproc & ->).
    by exists proc.
  - intros (proc & Hproc & ->). exists (result_tuple proc). split; [done|].
    apply elem_of_elements, elem_of_add_all. right. by exists proc.
Qed.

(** C8: the rows written for one source are without repetition, and each is
    the row of a process that the server yielded for a filter of that
    source: the lower-cased hostname and username, the path and the cmdline
    of that process, followed by the label and the kind of the source.  The
    filter is that of the query or indicator for [process_search], one of
    the field filters sent for the program for [nested_process_search].
    When the search of the source returns, every process yielded for it has
    its row. *)
Theorem rows_round_trip :
  (∀ cb q qb program source st,
     ∃ rows,
       csv_rows ((result_set ← process_search cb q (Some qb) ;
                  write_rows result_set program source) st).2
       = csv_rows st ++ rows ∧
       NoDup rows ∧
       (∀ row, row ∈ rows →
          ∃ proc, proc ∈ records (cb (queries st) (q +:+ qb)) ∧
            row = [Py.lower (hostname proc); Py.lower (username proc);
                   path proc; cmdline proc; program; source]) ∧
       (goes_on (cb (queries st) (q +:+ qb)) →
        ∀ proc, proc ∈ records (cb (queries st) (q +:+ qb)) →
          [Py.lower (hostname proc); Py.lower (username proc); path proc;
           cmdline proc; program; source] ∈ rows)) ∧
  (∀ cb criteria qb program source st,
     ∃ qs rows,
       qs `prefix_of` map (field_filter qb) criteria ∧
       queries ((result_set ← nested_process_search cb criteria (Some qb) ;
                 write_rows result_set program source) st).2
       = queries st ++ qs ∧
       csv_rows ((result_set ← nested_process_search cb criteria (Some qb) ;
                  write_rows result_set program source) st).2
       = csv_rows st ++ rows ∧
       NoDup rows ∧
       (∀ row, row ∈ rows →
          ∃ proc, proc ∈ yielded (responses cb (queries st) qs) ∧
            row = [Py.lower (hostname proc); Py.lower (username proc);
                   path proc; cmdline proc; program; source]) ∧
       (((result_set ← nested_process_search cb criteria (Some qb) ;
          write_rows result_set program source) st).1 = Return () →
        ∀ proc, proc ∈ yielded (responses cb (queries st) qs) →
          [Py.lower (hostname proc); Py.lower (username proc); path proc;
           cmdline proc; program; source] ∈ rows)).
Proof.
  split.
  - intros cb q qb program source st.
    unfold mbind, M_bind. rewrite process_search_eq.
    pose proof (except_KeyboardInterrupt_cases
                  (search_try cb (q +:+ qb) ∅) st) as Hcases.
    rewrite search_try_eq in Hcases. cbn [fst snd] in Hcases.
    unfold goes_on.
    destruct (finish (cb (queries st) (q +:+ qb))) as [e|].
    + destruct e; rewrite Hcases;
        try (exists []; simpl; rewrite app_nil_r;
             split; [done|]; split; [constructor|];
             split; [by intros row ?%elem_of_nil | by intros [?|?]]).
      rewrite write_rows_eq.
      eexists. split; [reflexivity|]. split; [apply rows_NoDup|].
      split; intros; by apply rows_of_add_all; eauto.
    + rewrite Hcases, write_rows_eq.
      eexists. split; [reflexivity|]. split; [apply rows_NoDup|].
      split; intros; by apply rows_of_add_all; eauto.
  - intros cb criteria qb program source st.
    unfold mbind, M_bind, nested_process_search.
    pose proof (except_KeyboardInterrupt_cases
                  (nested_try cb criteria (Some qb) ∅) st) as Hcases.
    destruct (nested_try_sent cb qb criteria ∅ st) as (qs & Hpre & Hst & Hres).
    exists qs.
    destruct (nested_try cb criteria (Some qb) ∅ st) as [[results out] st'].
    cbn [fst snd] in *. subst st' results.
    destruct out as [e|].
    + destruct e; rewrite Hcases;
        try (exists []; simpl; rewrite app_nil_r;
             repeat split; [done|constructor| |done];
             by intros row ?%elem_of_nil).
      rewrite write_rows_eq.
      eexists. split; [done|]. split; [reflexivity|]. split; [reflexivity|].
      split; [apply rows_NoDup|].
      split; intros; by apply rows_of_add_all; eauto.
    + rewrite Hcases, write_rows_eq.
      eexists. split; [done|]. split; [reflexivity|]. split; [reflexivity|].
      split; [apply rows_NoDup|].
      split; intros; by apply rows_of_add_all; eauto.
Qed.

Lemma rows_round_trip_witness :
  let cb := Fixtures.cb_table
              [("md5:abc",
                mkResponse [Fixtures.alice; Fixtures.bob;
                            Fixtures.alice_folded] None)] in
  ∃ rows,
    csv_rows ((result_set ← process_search cb "md5:abc" (Some "") ;
               write_rows result_set "abc" "ioc") St0).2 = rows ∧
    NoDup rows ∧ length rows = 2%nat ∧
    ["win-1"; "alice"; "C:\Tools\Evil.exe"; "Evil.exe  -Run"; "abc"; "ioc"]
    ∈ rows ∧
    ["srv-2"; "bob"; "/usr/bin/nc"; "nc -l 4444"; "abc"; "ioc"] ∈ rows.
Proof.
  intros cb.
  destruct (proj1 rows_round_trip cb "md5:abc" "" "abc" "ioc" St0)
    as (rows & Hrows & Hnodup & _ & Hall).
  exists rows. split; [exact Hrows|]. split; [exact Hnodup|].
  split.
  - cbn [St0 csv_rows app] in Hrows. rewrite <- Hrows. by vm_compute.
  - split.
    + apply (Hall ltac:(by left) Fixtures.alice). by left.
    + apply (Hall ltac:(by left) Fixtures.bob). right; by left.
Defined.

(** ** The three branches of [main] *)

Lemma truthy_str_Some s : s ≠ "" → Py.truthy_str (Some s) = true.
Proof. intros Hs. unfold Py.truthy_str. by rewrite bool_decide_eq_false_2. Qed.

(** [--query q] with a non-empty [q]: lines 147-153 run on the file that
    holds the header. *)
Lemma main_query w args q :
  criteria_arg args = Query q → q ≠ "" →
  main w args St0
  = (result_set ← process_search (connection w (profile args)) q
                     (Some (time_window (days args) (minutes args))) ;
     write_rows result_set q "query") (St_header (output_filename args)).
Proof.
  intros Hmode Hq.
  unfold main, find_definition_files, iocfile, deffile, defdir, query.
  rewrite Hmode. rewrite (truthy_str_Some q Hq).
  reflexivity.
Qed.

(** [--iocfile p --ioctype t] with a non-empty [p]: lines 155-165. *)
Lemma main_iocfile w args p t :
  criteria_arg args = Iocfile p → p ≠ "" → ioctype args = Some t →
  main w args St0
  = (data ← lift (readlines w p) ;
     for_each data
       (survey_ioc (connection w (profile args)) t
                   (time_window (days args) (minutes args))))
      (St_header (output_filename args)).
Proof.
  intros Hmode Hp Ht.
  unfold main, find_definition_files, iocfile, deffile, defdir, query.
  rewrite Hmode, Ht. rewrite (truthy_str_Some p Hp).
  reflexivity.
Qed.

(** [--deffile] or [--defdir], once the definition files are found: lines
    167-184. *)
Lemma main_definition_files w args files :
  find_definition_files w args St0 = (Return files, St0) →
  query args = None → iocfile args = None →
  main w args St0
  = for_each files
      (survey_definition_file w (connection w (profile args))
         (time_window (days args) (minutes args)))
      (St_header (output_filename args)).
Proof.
  intros Hfiles Hq Hioc. unfold main. rewrite Hq, Hioc.
  rewrite bool_decide_eq_false_2 by (by intros [? _]).
  unfold mbind, M_bind, mret, M_ret. rewrite Hfiles. reflexivity.
Qed.

(** ** Ad-hoc query mode (lines 147-153) *)

(** C9, as the claim states it, fails for the empty query text: with
    [--query "" --minutes 60] the branch of line 147 is not taken, so that
    nothing is sent to the server, where the claim has the filter
    [" start:-60m"] sent (for which this server yields a process). *)
Lemma empty_query_not_sent :
  let args := mkArgs None None None (Some 60) (Query "") None in
  let w := Fixtures.world
             (Fixtures.cb_table
                [(" start:-60m", mkResponse [Fixtures.bob] None)]) in
  "" +:+ time_window (days args) (minutes args) = " start:-60m" ∧
  run w args = (Return (), St_header "survey.csv") ∧
  queries (run w args).2 = [] ∧
  queries (run w args).2 ≠ [" start:-60m"].
Proof. repeat split; by vm_compute. Qed.

(** C9, amended: with a non-empty query text [q], exactly one filter is
    sent, [q] followed by the time window; every row after the header is
    the tuple of a process yielded for that filter, followed by [q] and
    ["query"]; when the search ends normally or is interrupted the rows
    are those of all the tuples of the yielded processes; and when no
    process is yielded the file holds the header alone. *)
Theorem adhoc_query w args q :
  criteria_arg args = Query q → q ≠ "" →
  let cb := connection w (profile args) in
  let filter := q +:+ time_window (days args) (minutes args) in
  queries (run w args).2 = [filter] ∧
  (∃ rows, csv_rows (run w args).2 = header :: rows ∧
     ∀ row, row ∈ rows →
       ∃ proc, proc ∈ records (cb [] filter) ∧
         row = [Py.lower (hostname proc); Py.lower (username proc);
                path proc; cmdline proc; q; "query"]) ∧
  (finish (cb [] filter) = None
   ∨ finish (cb [] filter) = Some KeyboardInterrupt →
   csv_rows (run w args).2
   = header :: map (row_of q "query")
                   (elements (add_all ∅ (records (cb [] filter))))) ∧
  (records (cb [] filter) = [] → csv_rows (run w args).2 = [header]).
Proof.
  intros Hmode Hq cb filter. unfold run.
  rewrite (main_query w args q Hmode Hq).
  unfold mbind, M_bind. rewrite process_search_eq.
  pose proof (except_KeyboardInterrupt_cases
                (search_try (connection w (profile args))
                   (q +:+ time_window (days args) (minutes args)) ∅)
                (St_header (output_filename args))) as Hcases.
  rewrite search_try_eq in Hcases. cbn [fst snd St_header queries] in Hcases.
  fold cb filter in Hcases |- *.
  assert (∀ rs : gset ResultTuple,
            (∀ t, t ∈ rs → ∃ proc, proc ∈ records (cb [] filter)
                                   ∧ t = result_tuple proc) →
            ∀ row, row ∈ map (row_of q "query") (elements rs) →
              ∃ proc, proc ∈ records (cb [] filter) ∧
                row = [Py.lower (hostname proc); Py.lower (username proc);
                       path proc; cmdline proc; q; "query"]) as Hrows.
  { intros rs Hrs row Hrow.
    destruct (rows_from_processes rs _ q "query" Hrs row Hrow)
      as (proc & Hproc & ->).
    by exists proc. }
  destruct (finish (cb [] filter)) as [e|] eqn:Hfin.
  - destruct e; rewrite Hcases;
      try (split; [done|]; split;
           [exists []; split; [done|]; by intros row ?%elem_of_nil|];
           split; [by intros [?|?]|done]).
    rewrite write_rows_eq. split; [done|]. split; [|split].
    + eexists. split; [reflexivity|].
      apply Hrows. intros t. apply add_all_empty_from.
    + done.
    + intros ->. reflexivity.
  - rewrite Hcases, write_rows_eq. split; [done|]. split; [|split].
    + eexists. split; [reflexivity|].
      apply Hrows. intros t. apply add_all_empty_from.
    + done.
    + intros ->. reflexivity.
Qed.

Lemma adhoc_query_witness :
  let args := mkArgs None None None (Some 60)
                (Query "process_name:evil.exe") None in
  let w := Fixtures.world Fixtures.cb_empty in
  queries (run w args).2 = ["process_name:evil.exe start:-60m"] ∧
  csv_rows (run w args).2 = [header].
Proof.
  intros args w.
  pose proof (adhoc_query w args "process_name:evil.exe" eq_refl
                ltac:(discriminate)) as (Hq & _ & _ & Hrows).
  split; [exact Hq | exact (Hrows eq_refl)].
Defined.

(** ** The loops of [main] over its sources *)

Lemma process_search_cases cb q qb st :
  match finish (cb (queries st) (q +:+ qb)) with
  | None =>
      process_search cb q (Some qb) st
      = (Return (add_all ∅ (records (cb (queries st) (q +:+ qb)))),
         sent [q +:+ qb] st)
  | Some KeyboardInterrupt =>
      process_search cb q (Some qb) st
      = (Return (add_all ∅ (records (cb (queries st) (q +:+ qb)))),
         caught (sent [q +:+ qb] st))
  | Some e => process_search cb q (Some qb) st = (Raise e, sent [q +:+ qb] st)
  end.
Proof.
  rewrite process_search_eq.
  pose proof (except_KeyboardInterrupt_cases (search_try cb (q +:+ qb) ∅) st)
    as Hcases.
  rewrite search_try_eq in Hcases. exact Hcases.
Qed.

Lemma for_each_cons {A} (x : A) xs body st :
  for_each (x :: xs) body st
  = match body x st with
    | (Return _, st') => for_each xs body st'
    | (Raise e, st') => (Raise e, st')
    end.
Proof. reflexivity. Qed.

(** The loop stops at the first source whose body raises: the sources after
    it are not attempted. *)
Lemma for_each_raise {A} (pre : list A) x post body e : ∀ st st1 st2,
  for_each pre body st = (Return (), st1) →
  body x st1 = (Raise e, st2) →
  for_each (pre ++ x :: post) body st = (Raise e, st2).
Proof.
  induction pre as [|a pre IH]; intros st st1 st2 Hpre Hx.
  - simpl in Hpre. injection Hpre as <-.
    simpl app. by rewrite for_each_cons, Hx.
  - rewrite <- app_comm_cons, for_each_cons.
    rewrite for_each_cons in Hpre.
    destruct (body a st) as [[[]|e'] st']; [|done].
    by apply (IH st' st1 st2).
Qed.

(** One line of the indicator file whose search goes on: its filter is
    sent and the line ends without exception. *)
Lemma survey_ioc_goes_on cb t qb line st :
  goes_on (cb (queries st) (ioc_filter t qb line)) →
  ∃ st', survey_ioc cb t qb line st = (Return (), st') ∧
         queries st' = queries st ++ [ioc_filter t qb line].
Proof.
  unfold goes_on, survey_ioc, ioc_filter. intros Hfin.
  unfold mbind, M_bind.
  pose proof (process_search_cases cb (t +:+ ":" +:+ Py.strip line) qb st)
    as Hcases.
  destruct Hfin as [Hfin | Hfin]; rewrite Hfin in Hcases;
    rewrite Hcases, write_rows_eq; eexists; split; reflexivity.
Qed.

Lemma survey_iocs_go_on cb t qb lines : ∀ st,
  Forall goes_on (responses cb (queries st) (map (ioc_filter t qb) lines)) →
  ∃ st', for_each lines (survey_ioc cb t qb) st = (Return (), st') ∧
         queries st' = queries st ++ map (ioc_filter t qb) lines.
Proof.
  induction lines as [|line lines IH]; intros st Hok.
  - exists st. simpl. by rewrite app_nil_r.
  - cbn [map responses] in Hok. apply Forall_cons in Hok as [Hhd Htl].
    destruct (survey_ioc_goes_on cb t qb line st Hhd) as (st1 & Hline & Hq1).
    rewrite <- Hq1 in Htl.
    destruct (IH st1 Htl) as (st' & Hrest & Hq').
    exists st'. rewrite for_each_cons, Hline. split; [done|].
    rewrite Hq', Hq1. cbn [map]. by rewrite <- app_assoc.
Qed.

Lemma lstrip_blank s : blank s = true → Py.lstrip s = "".
Proof.
  induction s as [|c s IH]; simpl; [done|].
  rewrite andb_true_iff. intros [-> Hs]. by apply IH.
Qed.

Lemma strip_blank s : blank s = true → Py.strip s = "".
Proof. intros Hs. unfold Py.strip. by rewrite (lstrip_blank s Hs). Qed.

(** ** Indicator files (lines 154-165) *)

(** C3, as the claim states it, fails: the blank second line of this
    indicator file is searched like any other, with the filter ["md5:"],
    and the process the server yields for it is written as a row with an
    empty indicator. *)
Lemma blank_line_is_queried :
  let args := mkArgs None None None None (Iocfile "iocs.txt") (Some "md5") in
  let w := mkWorld (λ _, true) (λ _, []) (λ _, Raise IOError)
             (λ _, Return [Fixtures.line "abc"; Fixtures.line "  "])
             (λ _, Fixtures.cb_table
                     [("md5:", mkResponse [Fixtures.bob] None)]) in
  blank (Fixtures.line "  ") = true ∧
  queries (run w args).2 = ["md5:abc"; "md5:"] ∧
  csv_rows (run w args).2
  = [header; ["srv-2"; "bob"; "/usr/bin/nc"; "nc -l 4444"; ""; "ioc"]].
Proof. repeat split; by vm_compute. Qed.

(** C3, amended: every line of the indicator file, blank or not, gives one
    search with the filter [<ioctype>:<line stripped>] followed by the time
    window, in the order of the file, as long as the searches go on; for a
    blank line the stripped line is empty and the filter is [<ioctype>:]
    followed by the time window. *)
Theorem ioc_lines_all_queried w args p t lines :
  criteria_arg args = Iocfile p → p ≠ "" → ioctype args = Some t →
  readlines w p = Return lines →
  let cb := connection w (profile args) in
  let qb := time_window (days args) (minutes args) in
  Forall goes_on (responses cb [] (map (ioc_filter t qb) lines)) →
  (run w args).1 = Return () ∧
  queries (run w args).2
  = map (λ line, (t +:+ ":" +:+ Py.strip line) +:+ qb) lines ∧
  (∀ line, line ∈ lines → blank line = true →
     (t +:+ ":") +:+ qb ∈ queries (run w args).2).
Proof.
  intros Hmode Hp Ht Hlines cb qb Hok. unfold run.
  rewrite (main_iocfile w args p t Hmode Hp Ht).
  unfold mbind, M_bind, lift. rewrite Hlines.
  destruct (survey_iocs_go_on cb t qb lines (St_header (output_filename args))
              Hok) as (st' & Hrun & Hq).
  fold cb qb. rewrite Hrun. cbn [fst snd]. rewrite Hq.
  split; [done|]. split; [done|].
  intros line Hin Hblank. cbn [St_header queries app].
  apply list_elem_of_fmap. exists line. split; [|done].
  unfold ioc_filter. by rewrite (strip_blank line Hblank).
Qed.

Lemma ioc_lines_all_queried_witness :
  let args := mkArgs None None None (Some 5) (Iocfile "iocs.txt")
                (Some "domain") in
  let w := mkWorld (λ _, true) (λ _, []) (λ _, Raise IOError)
             (λ _, Return [Fixtures.line "evil.example"; Fixtures.line ""])
             (λ _, Fixtures.cb_empty) in
  queries (run w args).2
  = ["domain:evil.example start:-5m"; "domain: start:-5m"].
Proof.
  intros args w.
  apply (ioc_lines_all_queried w args "iocs.txt" "domain"
           [Fixtures.line "evil.example"; Fixtures.line ""]);
    [reflexivity | discriminate | reflexivity | reflexivity |].
  repeat constructor.
Defined.

(** ** Failures of the server (lines 46-55) *)

(** C4, as the claim states it, fails: when the server fails on the first
    of two indicators, the run ends with that exception; the second
    indicator is never searched. *)
Lemma backend_failure_aborts_run :
  let args := mkArgs None None None None (Iocfile "iocs.txt") (Some "md5") in
  let w := mkWorld (λ _, true) (λ _, []) (λ _, Raise IOError)
             (λ _, Return [Fixtures.line "aaa"; Fixtures.line "bbb"])
             (λ _, Fixtures.cb_table
                     [("md5:aaa",
                       mkResponse [] (Some (ApiError "connection reset")));
                      ("md5:bbb", mkResponse [Fixtures.bob] None)]) in
  (run w args).1 = Raise (ApiError "connection reset") ∧
  queries (run w args).2 = ["md5:aaa"] ∧
  ("md5:bbb" ∉ queries (run w args).2) ∧
  csv_rows (run w args).2 = [header].
Proof.
  repeat split; try by vm_compute.
  intros Hin. vm_compute in Hin.
  apply list_elem_of_singleton in Hin. discriminate.
Qed.

(** C4, amended: an exception other than [KeyboardInterrupt] raised by the
    server during a search leaves [process_search] and
    [nested_process_search] as it is, with no result set; in a run over an
    indicator file it ends the run at that line, and in a run over
    definition files at that program, so that the sources after it are not
    searched; what was sent and written before stays. *)
Theorem backend_failure_propagates e :
  e ≠ KeyboardInterrupt →
  (∀ cb q qb st,
     finish (cb (queries st) (q +:+ qb)) = Some e →
     process_search cb q (Some qb) st = (Raise e, sent [q +:+ qb] st)) ∧
  (∀ cb qb pre field post st,
     Forall (λ r, finish r = None)
            (responses cb (queries st) (map (field_filter qb) pre)) →
     finish (cb (queries st ++ map (field_filter qb) pre)
                (field_filter qb field)) = Some e →
     nested_process_search cb (pre ++ field :: post) (Some qb) st
     = (Raise e, sent (map (field_filter qb) (pre ++ [field])) st)) ∧
  (∀ w args p t pre line post st1,
     criteria_arg args = Iocfile p → p ≠ "" → ioctype args = Some t →
     readlines w p = Return (pre ++ line :: post) →
     let cb := connection w (profile args) in
     let qb := time_window (days args) (minutes args) in
     for_each pre (survey_ioc cb t qb) (St_header (output_filename args))
     = (Return (), st1) →
     finish (cb (queries st1) (ioc_filter t qb line)) = Some e →
     run w args = (Raise e, sent [ioc_filter t qb line] st1)) ∧
  (∀ w args pre file post ppre program criteria ppost st1 st2 st3,
     find_definition_files w args St0 = (Return (pre ++ file :: post), St0) →
     query args = None → iocfile args = None →
     let cb := connection w (profile args) in
     let qb := time_window (days args) (minutes args) in
     let source := Py.splitext_root (Py.basename file) in
     for_each pre (survey_definition_file w cb qb)
       (St_header (output_filename args)) = (Return (), st1) →
     json_load w file = Return (ppre ++ (program, criteria) :: ppost) →
     for_each ppre (survey_program cb qb source)
       (printed ("Processing definition file: " +:+ file) st1)
     = (Return (), st2) →
     nested_process_search cb criteria (Some qb)
       (printed ("--> " +:+ program) st2) = (Raise e, st3) →
     run w args = (Raise e, st3)).
Proof.
  intros He.
  assert (∀ cb q qb st,
            finish (cb (queries st) (q +:+ qb)) = Some e →
            process_search cb q (Some qb) st = (Raise e, sent [q +:+ qb] st))
    as Hsearch.
  { intros cb q qb st Hfin.
    pose proof (process_search_cases cb q qb st) as Hcases.
    rewrite Hfin in Hcases. by destruct e. }
  split; [exact Hsearch|]. split; [|split].
  - intros cb qb pre field post st Hpre Hfin.
    unfold nested_process_search, except_KeyboardInterrupt.
    rewrite nested_try_app by exact Hpre.
    rewrite nested_try_cons. cbn [sent queries]. rewrite Hfin.
    rewrite sent_app, map_app. by destruct e.
  - intros w args p t pre line post st1 Hmode Hp Ht Hlines cb qb Hpre Hfin.
    unfold run. rewrite (main_iocfile w args p t Hmode Hp Ht).
    unfold mbind at 1, M_bind at 1, lift. rewrite Hlines.
    apply (for_each_raise pre line post _ e _ st1); [exact Hpre|].
    subst cb qb. unfold survey_ioc, mbind, M_bind.
    unfold ioc_filter in *. by rewrite (Hsearch _ _ _ st1 Hfin).
  - intros w args pre file post ppre program criteria ppost st1 st2 st3
      Hfiles Hq Hioc cb qb source Hpre Hload Hppre Hnested.
    unfold run. rewrite (main_definition_files w args _ Hfiles Hq Hioc).
    apply (for_each_raise pre file post _ e _ st1); [exact Hpre|].
    unfold survey_definition_file.
    unfold mbind at 1 2, M_bind at 1 2, lift, print at 1.
    fold (printed ("Processing definition file: " +:+ file) st1).
    rewrite Hload.
    apply (for_each_raise ppre (program, criteria) ppost _ e _ st2);
      [exact Hppre|].
    unfold survey_program, mbind, M_bind, print.
    fold (printed ("--> " +:+ program) st2).
    subst cb qb. by rewrite Hnested.
Qed.

Lemma backend_failure_propagates_witness :
  let args := mkArgs None None None None (Iocfile "iocs.txt") (Some "md5") in
  let w := mkWorld (λ _, true) (λ _, []) (λ _, Raise IOError)
             (λ _, Return [Fixtures.line "aaa"; Fixtures.line "bbb";
                           Fixtures.line "ccc"])
             (λ _, Fixtures.cb_table
                     [("md5:bbb", mkResponse [Fixtures.alice]
                                    (Some (ApiError "401")))]) in
  run w args
  = (Raise (ApiError "401"),
     sent ["md5:aaa"; "md5:bbb"] (St_header "survey.csv")).
Proof.
  intros args w.
  apply (proj1 (proj2 (proj2 (backend_failure_propagates (ApiError "401")
                                ltac:(discriminate))))
           w args "iocs.txt" "md5" [Fixtures.line "aaa"] (Fixtures.line "bbb")
           [Fixtures.line "ccc"] (sent ["md5:aaa"] (St_header "survey.csv")));
    [reflexivity | discriminate | reflexivity | reflexivity
    | by vm_compute | reflexivity].
Defined.

(** ** Definition files (lines 167-184) *)

(** C2, as the claim states it, fails: of the three definition files found
    in the directory the second is not JSON; the run ends with the
    [ValueError] of [json.load], after the rows of the first file, and the
    third file is neither read nor searched. *)
Lemma malformed_definition_aborts_run :
  let args := mkArgs None None None None (Defdir "defs") None in
  let cb := Fixtures.cb_table
              [("(process_name:chrome.exe)", mkResponse [Fixtures.alice] None);
               ("(process_name:nc)", mkResponse [Fixtures.bob] None)] in
  let w := mkWorld (λ _, true)
             (λ _, [("defs", [], ["a.json"; "b.json"; "c.json"; "notes.txt"])])
             (λ p, if decide (p = "defs/a.json")
                   then Return [("chrome", [("process_name", ["chrome.exe"])])]
                   else if decide (p = "defs/c.json")
                   then Return [("netcat", [("process_name", ["nc"])])]
                   else Raise ValueError)
             (λ _, Raise IOError) (λ _, cb) in
  (run w args).1 = Raise ValueError ∧
  stdout (run w args).2
  = ["Processing definition file: defs/a.json"; "--> chrome";
     "Processing definition file: defs/b.json"] ∧
  queries (run w args).2 = ["(process_name:chrome.exe)"] ∧
  csv_rows (run w args).2
  = [header;
     ["win-1"; "alice"; "C:\Tools\Evil.exe"; "Evil.exe  -Run"; "chrome"; "a"]].
Proof. repeat split; by vm_compute. Qed.

(** C2, amended: when a definition file cannot be read or parsed, the
    exception of [json.load] ends the run at that file: the file gives no
    row, and the definition files after it are not processed; the rows of
    the files before it stay. *)
Theorem definition_parse_failure_propagates w args pre file post e st1 :
  find_definition_files w args St0 = (Return (pre ++ file :: post), St0) →
  query args = None → iocfile args = None →
  let cb := connection w (profile args) in
  let qb := time_window (days args) (minutes args) in
  for_each pre (survey_definition_file w cb qb)
    (St_header (output_filename args)) = (Return (), st1) →
  json_load w file = Raise e →
  run w args
  = (Raise e, printed ("Processing definition file: " +:+ file) st1).
Proof.
  intros Hfiles Hq Hioc cb qb Hpre Hload. unfold run.
  rewrite (main_definition_files w args _ Hfiles Hq Hioc).
  apply (for_each_raise pre file post _ e _ st1); [exact Hpre|].
  unfold survey_definition_file, mbind, M_bind, lift, print.
  by rewrite Hload.
Qed.

Lemma definition_parse_failure_propagates_witness :
  let args := mkArgs None None None None (Defdir "defs") None in
  let w := mkWorld (λ _, true)
             (λ _, [("defs", [], ["a.json"; "b.json"; "c.json"])])
             (λ p, if decide (p = "defs/a.json") then Return []
                   else Raise ValueError)
             (λ _, Raise IOError) (λ _, Fixtures.cb_empty) in
  run w args
  = (Raise ValueError,
     printed "Processing definition file: defs/b.json"
       (printed "Processing definition file: defs/a.json"
          (St_header "survey.csv"))).
Proof.
  intros args w.
  apply (definition_parse_failure_propagates w args ["defs/a.json"]
           "defs/b.json" ["defs/c.json"] ValueError
           (printed "Processing definition file: defs/a.json"
              (St_header "survey.csv"))); reflexivity.
Defined.

(** ** The result set as a function of the processes yielded (lines 42-51) *)

Lemma add_all_list_to_set (procs : list Process) :
  add_all ∅ procs = list_to_set (map result_tuple procs).
Proof.
  apply set_eq. intros t.
  rewrite elem_of_add_all, elem_of_list_to_set, list_elem_of_fmap.
  split.
  - intros [Hin | (proc & Hproc & ->)]; [by apply not_elem_of_empty in Hin|].
    by exists proc.
  - intros (proc & -> & Hproc). right. by exists proc.
Qed.

(** X1: the set a search returns depends only on which tuples the yielded
    processes have, not on the order in which the server yields them nor on
    how often it yields one. *)
Theorem result_set_order_independent (procs procs' : list Process) :
  (∀ t, t ∈ map result_tuple procs ↔ t ∈ map result_tuple procs') →
  add_all ∅ procs = add_all ∅ procs'.
Proof.
  intros Hsame. rewrite !add_all_list_to_set.
  apply set_eq. intros t. rewrite !elem_of_list_to_set. apply Hsame.
Qed.

Lemma result_set_order_independent_witness :
  add_all ∅ [Fixtures.bob; Fixtures.alice; Fixtures.alice_folded;
             Fixtures.bob]
  = add_all ∅ [Fixtures.alice; Fixtures.bob].
Proof.
  apply result_set_order_independent. intros t.
  change (map result_tuple
            [Fixtures.bob; Fixtures.alice; Fixtures.alice_folded;
             Fixtures.bob])
    with [result_tuple Fixtures.bob; result_tuple Fixtures.alice;
          result_tuple Fixtures.alice; result_tuple Fixtures.bob].
  change (map result_tuple [Fixtures.alice; Fixtures.bob])
    with [result_tuple Fixtures.alice; result_tuple Fixtures.bob].
  rewrite !elem_of_cons, !elem_of_nil. tauto.
Defined.

Lemma size_add_all (procs : list Process) :
  (size (add_all ∅ procs) ≤ length procs)%nat.
Proof.
  induction procs as [|proc procs IH] using rev_ind; [done|].
  rewrite add_all_app, length_app. simpl.
  rewrite size_union_alt.
  pose proof (subseteq_size (({[result_tuple proc]} : gset ResultTuple)
                               ∖ add_all ∅ procs) {[result_tuple proc]})
    as Hle.
  rewrite size_singleton in Hle.
  assert (({[result_tuple proc]} : gset ResultTuple) ∖ add_all ∅ procs
          ⊆ {[result_tuple proc]}) as Hsub.
  { intros t Ht. by apply elem_of_difference in Ht as [Ht _]. }
  specialize (Hle Hsub). lia.
Qed.

Lemma survey_ioc_search_and_write cb t qb line :
  survey_ioc cb t qb line
  = search_and_write cb (t +:+ ":" +:+ Py.strip line) qb (Py.strip line)
      "ioc".
Proof. reflexivity. Qed.

(** X2: a search adds at most as many rows to the CSV file as the server
    yielded processes for it, whatever way the search ends. *)
Theorem rows_at_most_records cb q qb program source st :
  (length (csv_rows (search_and_write cb q qb program source st).2)
   ≤ length (csv_rows st) + length (records (cb (queries st) (q +:+ qb))))%nat.
Proof.
  unfold search_and_write, mbind, M_bind.
  pose proof (process_search_cases cb q qb st) as Hcases.
  pose proof (size_add_all (records (cb (queries st) (q +:+ qb)))) as Hsize.
  unfold size, set_size in Hsize. simpl in Hsize.
  destruct (finish (cb (queries st) (q +:+ qb))) as [e|].
  - destruct e; rewrite Hcases; simpl; try lia.
    rewrite write_rows_eq. simpl. rewrite length_app, length_map. lia.
  - rewrite Hcases, write_rows_eq. simpl. rewrite length_app, length_map. lia.
Qed.



(** ** Tuples are case-folded (lines 48-49, 69-70) *)

(** X4: in every tuple of a set returned by [process_search] or
    [nested_process_search] the hostname and the username hold no letter
    A to Z, and folding them again changes nothing. *)
Theorem returned_tuples_are_folded :
  (∀ cb q query_base st result_set,
     (process_search cb q query_base st).1 = Return result_set →
     ∀ h u p c, (h, u, p, c) ∈ result_set →
       has_upper h = false ∧ has_upper u = false
       ∧ Py.lower h = h ∧ Py.lower u = u) ∧
  (∀ cb criteria query_base st result_set,
     (nested_process_search cb criteria query_base st).1 = Return result_set →
     ∀ h u p c, (h, u, p, c) ∈ result_set →
       has_upper h = false ∧ has_upper u = false
       ∧ Py.lower h = h ∧ Py.lower u = u).
Proof.
  assert (∀ procs h u p c,
            (h, u, p, c) ∈ add_all ∅ procs →
            has_upper h = false ∧ has_upper u = false
            ∧ Py.lower h = h ∧ Py.lower u = u) as Hfold.
  { intros procs h u p c Hin.
    apply add_all_empty_from in Hin as (proc & _ & Heq).
    unfold result_tuple in Heq. injection Heq as -> -> _ _.
    repeat split; try apply lower_no_upper; apply lower_idemp. }
  split.
  - intros cb q [qb|] st result_set Hret; [|done].
    pose proof (process_search_cases cb q qb st) as Hcases.
    destruct (finish (cb (queries st) (q +:+ qb))) as [[]|];
      rewrite Hcases in Hret; try done;
      injection Hret as <-; apply Hfold.
  - intros cb criteria [qb|] st result_set Hret.
    + unfold nested_process_search in Hret.
      pose proof (except_KeyboardInterrupt_cases
                    (nested_try cb criteria (Some qb) ∅) st) as Hcases.
      destruct (nested_try_sent cb qb criteria ∅ st) as (qs & _ & _ & Hres).
      destruct (nested_try cb criteria (Some qb) ∅ st) as [[results out] st'].
      cbn [fst snd] in *. subst results.
      destruct out as [[]|]; rewrite Hcases in Hret; try done;
        injection Hret as <-; apply Hfold.
    + destruct criteria as [|[f terms] criteria]; [|done].
      injection Hret as <-. intros h u p c Hin.
      by apply not_elem_of_empty in Hin.
Qed.

Lemma returned_tuples_are_folded_witness :
  let cb := Fixtures.cb_table
              [("md5:abc", mkResponse [Fixtures.alice] None)] in
  has_upper "win-1" = false ∧ has_upper "alice" = false
  ∧ Py.lower "win-1" = "win-1" ∧ Py.lower "alice" = "alice".
Proof.
  intros cb.
  apply (proj1 returned_tuples_are_folded cb "md5:abc" (Some "") St0
           (add_all ∅ [Fixtures.alice]) eq_refl
           "win-1" "alice" "C:\Tools\Evil.exe" "Evil.exe  -Run").
  apply elem_of_add_all. right. exists Fixtures.alice.
  split; [apply elem_of_cons; by left | reflexivity].
Defined.

(** ** What every run does and does not do *)

Section Effects.

Variable P : string → Prop.
Variable E : exn → Prop.

Lemma grows_refl st : grows P st st.
Proof.
  repeat split.
  - exists []. by rewrite app_nil_r.
  - exists []. by rewrite app_nil_r.
Qed.

Lemma grows_trans st1 st2 st3 :
  grows P st1 st2 → grows P st2 st3 → grows P st1 st3.
Proof.
  intros ((qs1 & Hq1 & HP1) & Hn1 & rows1 & Hr1 & H61)
         ((qs2 & Hq2 & HP2) & Hn2 & rows2 & Hr2 & H62).
  repeat split.
  - exists (qs1 ++ qs2). rewrite Hq2, Hq1, app_assoc. split; [done|].
    by apply Forall_app.
  - by rewrite Hn2.
  - exists (rows1 ++ rows2). rewrite Hr2, Hr1, app_assoc. split; [done|].
    by apply Forall_app.
Qed.

Lemma grows_sent qs st : Forall P qs → grows P st (sent qs st).
Proof.
  intros HP. repeat split.
  - by exists qs.
  - exists []. simpl. by rewrite app_nil_r.
Qed.

Lemma grows_printed line st : grows P st (printed line st).
Proof.
  repeat split.
  - exists []. simpl. by rewrite app_nil_r.
  - exists []. simpl. by rewrite app_nil_r.
Qed.

Lemma grows_wrote rows st :
  Forall (λ row, length row = 6%nat) rows → grows P st (wrote rows st).
Proof.
  intros H6. repeat split.
  - exists []. simpl. by rewrite app_nil_r.
  - by exists rows.
Qed.

Lemma keeps_ret {A} (a : A) : keeps P E (mret a).
Proof. intros st. split; [apply grows_refl | done]. Qed.

Lemma keeps_bind {A B} (m : M A) (f : A → M B) :
  keeps P E m → (∀ a, keeps P E (f a)) → keeps P E (m ≫= f).
Proof.
  intros Hm Hf st. unfold mbind, M_bind.
  destruct (Hm st) as [Hgrow Hexn].
  destruct (m st) as [[a|e] st']; cbn [fst snd] in *.
  - destruct (Hf a st') as [Hgrow' Hexn'].
    split; [by apply (grows_trans st st') | done].
  - split; [exact Hgrow|]. intros e' [= <-]. by apply Hexn.
Qed.

Lemma keeps_for_each {A} (xs : list A) (body : A → M unit) :
  (∀ x, x ∈ xs → keeps P E (body x)) → keeps P E (for_each xs body).
Proof.
  induction xs as [|x xs IH]; intros Hbody.
  - apply keeps_ret.
  - cbn [for_each]. apply keeps_bind.
    + apply Hbody. by left.
    + intros _. apply IH. intros y Hy. apply Hbody. by right.
Qed.

Lemma keeps_print line : keeps P E (print line).
Proof. intros st. split; [apply grows_printed | done]. Qed.

Lemma keeps_lift {A} (r : result A) :
  (∀ e, r = Raise e → E e) → keeps P E (lift r).
Proof. intros Hr st. split; [apply grows_refl | exact Hr]. Qed.

Lemma keeps_write_rows result_set program source :
  keeps P E (write_rows result_set program source).
Proof.
  intros st. rewrite write_rows_eq. split; [|done].
  apply grows_wrote, Forall_forall. intros row Hrow.
  apply list_elem_of_fmap in Hrow as ([[[a b] c] d] & -> & _). reflexivity.
Qed.

Variable cb : CbConn.
Hypothesis E_server :
  ∀ h q e, finish (cb h q) = Some e → e ≠ KeyboardInterrupt → E e.

Lemma keeps_process_search q qb :
  P (q +:+ qb) → keeps P E (process_search cb q (Some qb)).
Proof.
  intros HP st.
  pose proof (process_search_cases cb q qb st) as Hcases.
  assert (grows P st (sent [q +:+ qb] st)) as Hsent
    by (apply grows_sent; by repeat constructor).
  destruct (finish (cb (queries st) (q +:+ qb))) as [e|] eqn:Hfin.
  - assert (e ≠ KeyboardInterrupt → E e) as He by apply (E_server _ _ _ Hfin).
    destruct e; rewrite Hcases; cbn [fst snd];
      (split; [exact Hsent|]; intros e' [= <-]; by apply He).
  - rewrite Hcases. by split.
Qed.

Lemma nested_try_raised qb criteria : ∀ results st e,
  (nested_try cb criteria (Some qb) results st).1.2 = Some e →
  ∃ h q, finish (cb h q) = Some e.
Proof.
  induction criteria as [|field criteria IH]; intros results st e; [done|].
  rewrite nested_try_cons.
  destruct (finish (cb (queries st) (field_filter qb field))) as [e'|]
    eqn:Hfin.
  - intros [= <-]. eauto.
  - apply IH.
Qed.

Lemma keeps_nested_process_search criteria qb :
  (∀ field, field ∈ criteria → P (field_filter qb field)) →
  keeps P E (nested_process_search cb criteria (Some qb)).
Proof.
  intros HP st. unfold nested_process_search.
  pose proof (except_KeyboardInterrupt_cases
                (nested_try cb criteria (Some qb) ∅) st) as Hcases.
  destruct (nested_try_sent cb qb criteria ∅ st) as (qs & Hpre & Hst & _).
  pose proof (nested_try_raised qb criteria ∅ st) as Hraised.
  assert (grows P st (sent qs st)) as Hsent.
  { apply grows_sent. destruct Hpre as [k Hk].
    assert (Forall P (map (field_filter qb) criteria)) as Hall.
    { apply Forall_forall. intros q Hq.
      apply list_elem_of_fmap in Hq as (field & -> & Hfield). by apply HP. }
    rewrite Hk in Hall. by apply Forall_app in Hall as [? _]. }
  destruct (nested_try cb criteria (Some qb) ∅ st) as [[results out] st'].
  cbn [fst snd] in *. subst st'.
  destruct out as [e|].
  - destruct (Hraised e eq_refl) as (h & q & Hfin).
    assert (e ≠ KeyboardInterrupt → E e) as He by apply (E_server _ _ _ Hfin).
    destruct e; rewrite Hcases; cbn [fst snd];
      (split; [exact Hsent|]; intros e' [= <-]; by apply He).
  - rewrite Hcases. by split.
Qed.

End Effects.

Section Survey.

Variable w : World.
Variable args : Args.
Variable P : string → Prop.
Variable E : exn → Prop.

Let cb := connection w (profile args).
Let qb := time_window (days args) (minutes args).

Hypothesis P_window : ∀ body, P (body +:+ qb).
Hypothesis E_server :
  ∀ h q e, finish (cb h q) = Some e → e ≠ KeyboardInterrupt → E e.
Hypothesis E_readlines : ∀ p e, readlines w p = Raise e → E e.
Hypothesis E_json_load : ∀ p e, json_load w p = Raise e → E e.

Lemma keeps_survey_ioc t line : keeps P E (survey_ioc cb t qb line).
Proof.
  unfold survey_ioc. apply keeps_bind.
  - apply keeps_process_search; [exact E_server | apply P_window].
  - intros result_set. apply keeps_write_rows.
Qed.

Lemma keeps_survey_program source item :
  keeps P E (survey_program cb qb source item).
Proof.
  destruct item as [program criteria]. unfold survey_program.
  apply keeps_bind; [apply keeps_print|]. intros _.
  apply keeps_bind.
  - apply keeps_nested_process_search; [exact E_server|].
    intros field _. apply P_window.
  - intros result_set. apply keeps_write_rows.
Qed.

Lemma keeps_survey_definition_file definition_file :
  keeps P E (survey_definition_file w cb qb definition_file).
Proof.
  unfold survey_definition_file.
  apply keeps_bind; [apply keeps_print|]. intros _.
  apply keeps_bind; [apply keeps_lift, E_json_load|]. intros programs.
  apply keeps_for_each. intros item _. apply keeps_survey_program.
Qed.

Lemma keeps_survey_sources definition_files :
  keeps P E (survey_sources w args definition_files).
Proof.
  unfold survey_sources. fold cb qb.
  destruct (Py.truthy_str (query args)).
  - apply keeps_bind.
    + apply keeps_process_search; [exact E_server | apply P_window].
    + intros result_set. apply keeps_write_rows.
  - destruct (Py.truthy_str (iocfile args)).
    + apply keeps_bind; [apply keeps_lift, E_readlines|]. intros data.
      apply keeps_for_each. intros line _. apply keeps_survey_ioc.
    + apply keeps_for_each. intros file _.
      apply keeps_survey_definition_file.
Qed.

End Survey.

(** [main] either leaves before the CSV file is opened, with exit status 2
    (line 110) or 1 (lines 127, 132), or opens it, writes the header and
    surveys the sources. *)
Lemma main_cases w args :
  run w args = (Raise (SystemExit 2), St0)
  ∨ (∃ msg, run w args = (Raise (SystemExit 1), erred msg St0))
  ∨ (∃ files,
       run w args
       = survey_sources w args files (St_header (output_filename args))).
Proof.
  unfold run, main.
  destruct (bool_decide (iocfile args ≠ None ∧ ioctype args = None));
    [by left|].
  right. unfold find_definition_files.
  destruct (Py.truthy_str (deffile args)).
  - destruct (os_path_exists w (default "" (deffile args)));
      [right; eexists; reflexivity | left; eexists; reflexivity].
  - destruct (Py.truthy_str (defdir args)).
    + destruct (os_path_exists w (default "" (defdir args)));
        [right; eexists; reflexivity | left; eexists; reflexivity].
    + right; eexists; reflexivity.
Qed.

(** X5: at the end of every run, also of one that ends with an exception:
    as long as the CSV file has not been opened, no row has been written
    and nothing has been sent to the server; once it is open, it is the file
    named from [--prefix], its first row is the header and every other row
    has six columns. *)
Theorem csv_file_shape w args :
  (csv_name (run w args).2 = None →
   csv_rows (run w args).2 = [] ∧ queries (run w args).2 = []) ∧
  (∀ name, csv_name (run w args).2 = Some name →
     name = output_filename args ∧
     ∃ rows, csv_rows (run w args).2 = header :: rows
             ∧ Forall (λ row, length row = 6%nat) rows).
Proof.
  destruct (main_cases w args) as [Hrun | [[msg Hrun] | [files Hrun]]];
    rewrite Hrun.
  - by split.
  - by split.
  - destruct (keeps_survey_sources w args (λ _, True) (λ _, True)
                ltac:(done) ltac:(done) ltac:(done) ltac:(done) files
                (St_header (output_filename args)))
      as [(_ & Hname & rows & Hrows & H6) _].
    rewrite Hname, Hrows. split; [done|].
    intros name [= <-]. split; [done|]. by exists rows.
Qed.

Lemma csv_file_shape_witness :
  let w := mkWorld (λ _, true) (λ _, []) (λ _, Raise IOError)
             (λ _, Return [Fixtures.line "abc"])
             (λ _, Fixtures.cb_table
                     [("md5:abc", mkResponse [Fixtures.bob]
                                    (Some (ApiError "500")))]) in
  let args := mkArgs (Some "host7") None None None (Iocfile "iocs.txt")
                (Some "md5") in
  csv_name (run w args).2 = Some "host7-survey.csv" ∧
  ∃ rows, csv_rows (run w args).2 = header :: rows
          ∧ Forall (λ row, length row = 6%nat) rows.
Proof.
  intros w args. split; [reflexivity|].
  exact (proj2 (proj2 (csv_file_shape w args) "host7-survey.csv" eq_refl)).
Defined.

(** X6: every filter the run sends to the server ends with the time window
    made from [--days] and [--minutes]. *)
Theorem every_filter_has_time_window w args q :
  q ∈ queries (run w args).2 →
  ∃ body, q = body +:+ time_window (days args) (minutes args).
Proof.
  destruct (main_cases w args) as [Hrun | [[msg Hrun] | [files Hrun]]];
    rewrite Hrun; cbn [snd St0 erred queries];
    try by intros ?%elem_of_nil.
  destruct (keeps_survey_sources w args
              (λ q, ∃ body, q = body +:+ time_window (days args) (minutes args))
              (λ _, True)
              ltac:(by eexists) ltac:(done) ltac:(done) ltac:(done) files
              (St_header (output_filename args)))
    as [((qs & Hqs & HP) & _) _].
  rewrite Hqs. cbn [St_header queries app]. intros Hq.
  by apply (proj1 (Forall_forall _ _) HP).
Qed.

Lemma every_filter_has_time_window_witness :
  let args := mkArgs None None (Some 2) None (Iocfile "iocs.txt")
                (Some "domain") in
  let w := mkWorld (λ _, true) (λ _, []) (λ _, Raise IOError)
             (λ _, Return [Fixtures.line "evil.example"])
             (λ _, Fixtures.cb_empty) in
  "domain:evil.example start:-2880m" ∈ queries (run w args).2 ∧
  ∃ body, "domain:evil.example start:-2880m" = body +:+ " start:-2880m".
Proof.
  intros args w.
  assert ("domain:evil.example start:-2880m" ∈ queries (run w args).2)
    as Hin by (vm_compute; by left).
  split; [exact Hin|].
  exact (every_filter_has_time_window w args _ Hin).
Defined.

(** ** The checks of the arguments (lines 109-110, 124-132) *)

(** X8: [--iocfile] without [--ioctype] ends the run with exit status 2
    before anything else is done: no CSV file is opened, nothing is sent to
    the server, nothing is printed on standard output; this for every file
    name, the empty one included. *)
Theorem iocfile_requires_ioctype w args p :
  criteria_arg args = Iocfile p → ioctype args = None →
  (run w args).1 = Raise (SystemExit 2) ∧
  csv_name (run w args).2 = None ∧ csv_rows (run w args).2 = [] ∧
  queries (run w args).2 = [] ∧ stdout (run w args).2 = [].
Proof.
  intros Hmode Htype. unfold run, main, iocfile. rewrite Hmode, Htype.
  by repeat split.
Qed.

Lemma iocfile_requires_ioctype_witness :
  (run (Fixtures.world Fixtures.cb_empty)
       (mkArgs (Some "x") None (Some 1) None (Iocfile "iocs.txt") None)).1
  = Raise (SystemExit 2).
Proof.
  apply (iocfile_requires_ioctype _ _ "iocs.txt"); reflexivity.
Defined.

(** X9: when the path given with [--deffile] or [--defdir] does not exist,
    the run ends with exit status 1 after one line on standard error; no
    CSV file is opened, not even an empty one with the header, and nothing
    is sent to the server. *)
Theorem missing_path_exits w args p :
  p ≠ "" → os_path_exists w p = false →
  (criteria_arg args = Deffile p →
   run w args
   = (Raise (SystemExit 1),
      mkSt [] [] ["ERROR: deffile does not exist" +:+ String "010" ""]
           None [])) ∧
  (criteria_arg args = Defdir p →
   run w args
   = (Raise (SystemExit 1),
      mkSt [] [] ["ERROR: defdir does not exist" +:+ String "010" ""]
           None [])).
Proof.
  intros Hp Hexists.
  split; intros Hmode; unfold run, main.
  - assert (iocfile args = None) as -> by (unfold iocfile; by rewrite Hmode).
    rewrite bool_decide_eq_false_2 by (by intros [? _]).
    unfold find_definition_files.
    assert (deffile args = Some p) as -> by (unfold deffile; by rewrite Hmode).
    rewrite (truthy_str_Some p Hp).
    change (default "" (Some p)) with p. rewrite Hexists. reflexivity.
  - assert (iocfile args = None) as -> by (unfold iocfile; by rewrite Hmode).
    rewrite bool_decide_eq_false_2 by (by intros [? _]).
    unfold find_definition_files.
    assert (deffile args = None) as -> by (unfold deffile; by rewrite Hmode).
    assert (defdir args = Some p) as -> by (unfold defdir; by rewrite Hmode).
    change (Py.truthy_str None) with false. cbv iota.
    rewrite (truthy_str_Some p Hp).
    change (default "" (Some p)) with p. rewrite Hexists. reflexivity.
Qed.

Lemma missing_path_exits_witness :
  run (Fixtures.world Fixtures.cb_empty)
      (mkArgs None None None None (Defdir "defs") None)
  = (Raise (SystemExit 1),
     mkSt [] [] ["ERROR: defdir does not exist" +:+ String "010" ""]
          None []).
Proof.
  apply (proj2 (missing_path_exits (Fixtures.world Fixtures.cb_empty)
                  (mkArgs None None None None (Defdir "defs") None) "defs"
                  ltac:(discriminate) eq_refl)).
  reflexivity.
Defined.

(** X10: [--deffile p] with an existing path surveys exactly the file [p],
    whatever its name: the name is not required to end in [.json] and the
    directory walk is not consulted. *)
Theorem deffile_is_surveyed_as_given w args p :
  criteria_arg args = Deffile p → p ≠ "" → os_path_exists w p = true →
  run w args
  = survey_definition_file w (connection w (profile args))
      (time_window (days args) (minutes args)) p
      (St_header (output_filename args)).
Proof.
  intros Hmode Hp Hexists. unfold run.
  rewrite (main_definition_files w args [p]).
  - cbn [for_each]. unfold mbind, M_bind.
    destruct (survey_definition_file _ _ _ _ _) as [[[]|e] st]; reflexivity.
  - unfold find_definition_files, deffile. rewrite Hmode.
    rewrite (truthy_str_Some p Hp).
    change (default "" (Some p)) with p. by rewrite Hexists.
  - unfold query. by rewrite Hmode.
  - unfold iocfile. by rewrite Hmode.
Qed.

Lemma deffile_is_surveyed_as_given_witness :
  let w := mkWorld (λ _, true) (λ _, [])
             (λ _, Return [("netcat", [("process_name", ["nc"])])])
             (λ _, Raise IOError)
             (λ _, Fixtures.cb_table
                     [("(process_name:nc)", mkResponse [Fixtures.bob] None)]) in
  let args := mkArgs None None None None (Deffile "defs/tools.txt") None in
  csv_rows (run w args).2
  = [header; ["srv-2"; "bob"; "/usr/bin/nc"; "nc -l 4444"; "netcat"; "tools"]].
Proof.
  intros w args.
  rewrite (deffile_is_surveyed_as_given w args "defs/tools.txt" eq_refl
             ltac:(discriminate) eq_refl).
  by vm_compute.
Defined.

(** ** Whitespace around an indicator (line 158) *)

Lemma rev_app_eq (s t : string) : String.rev_app s t = String.rev s +:+ t.
Proof.
  revert t. induction s as [|c s IH]; intros t; [done|].
  unfold String.rev. simpl. rewrite (IH (String c t)), (IH (String c "")).
  by rewrite append_assoc.
Qed.

Lemma rev_cons c (s : string) :
  String.rev (String c s) = String.rev s +:+ String c "".
Proof. unfold String.rev at 1. simpl. apply rev_app_eq. Qed.

Lemma rev_append (s t : string) :
  String.rev (s +:+ t) = String.rev t +:+ String.rev s.
Proof.
  induction s as [|c s IH].
  - by rewrite append_empty_r.
  - by rewrite append_cons, !rev_cons, IH, append_assoc.
Qed.

Lemma blank_append (s t : string) : blank (s +:+ t) = blank s && blank t.
Proof.
  induction s as [|c s IH]; [done|].
  rewrite append_cons. simpl. by rewrite IH, andb_assoc.
Qed.

Lemma blank_rev (s : string) : blank (String.rev s) = blank s.
Proof.
  induction s as [|c s IH]; [done|].
  rewrite rev_cons, blank_append, IH. simpl.
  by rewrite andb_true_r, andb_comm.
Qed.

Lemma lstrip_blank_append (s t : string) :
  blank s = true → Py.lstrip (s +:+ t) = Py.lstrip t.
Proof.
  induction s as [|c s IH]; [done|].
  simpl. rewrite andb_true_iff. intros [Hc Hs]. rewrite Hc. by apply IH.
Qed.

Lemma lstrip_append (s t : string) :
  blank s = false → Py.lstrip (s +:+ t) = Py.lstrip s +:+ t.
Proof.
  induction s as [|c s IH]; [done|].
  simpl. destruct (Ascii.is_space c); simpl; [apply IH | done].
Qed.

Lemma rstrip_append_blank (s t : string) :
  blank t = true → Py.rstrip (s +:+ t) = Py.rstrip s.
Proof.
  intros Ht. unfold Py.rstrip.
  rewrite rev_append, lstrip_blank_append; [done|].
  by rewrite blank_rev.
Qed.

Lemma strip_surrounded (ws1 s ws2 : string) :
  blank ws1 = true → blank ws2 = true →
  Py.strip (ws1 +:+ s +:+ ws2) = Py.strip s.
Proof.
  intros H1 H2. unfold Py.strip.
  rewrite lstrip_blank_append by exact H1.
  destruct (blank s) eqn:Hs.
  - rewrite lstrip_blank_append by exact Hs.
    by rewrite (lstrip_blank ws2 H2), (lstrip_blank s Hs).
  - rewrite lstrip_append by exact Hs. by apply rstrip_append_blank.
Qed.

(** X11: whitespace before and after an indicator, the line end included,
    makes no difference: the line is searched with the same filter and its
    rows carry the same indicator as the line without it. *)
Theorem ioc_line_whitespace_ignored cb t qb ws1 s ws2 :
  blank ws1 = true → blank ws2 = true →
  survey_ioc cb t qb (ws1 +:+ s +:+ ws2) = survey_ioc cb t qb s.
Proof.
  intros H1 H2. unfold survey_ioc.
  by rewrite (strip_surrounded ws1 s ws2 H1 H2).
Qed.

Lemma ioc_line_whitespace_ignored_witness :
  survey_ioc Fixtures.cb_empty "md5" ""
    ("  " +:+ "d41d8cd9" +:+ Fixtures.line " ")
  = survey_ioc Fixtures.cb_empty "md5" "" "d41d8cd9".
Proof.
  apply (ioc_line_whitespace_ignored Fixtures.cb_empty "md5" ""
           "  " "d41d8cd9" (Fixtures.line " ")); reflexivity.
Defined.

(** ** Paths of definition files (lines 133-136, 169-170) *)

Lemma length_append (a b : string) :
  String.length (a +:+ b) = (String.length a + String.length b)%nat.
Proof. induction a as [|c a IH]; [done|]. simpl. by rewrite IH. Qed.

Lemma substring_0_length (s : string) : substring 0 (String.length s) s = s.
Proof. induction s as [|c s IH]; [done|]. simpl. by rewrite IH. Qed.

Lemma substring_0_append (a b : string) :
  substring 0 (String.length a) (a +:+ b) = a.
Proof.
  induction a as [|c a IH]; simpl.
  - by destruct b.
  - by rewrite IH.
Qed.

Lemma substring_skip (a b : string) i m :
  substring (String.length a + i) m (a +:+ b) = substring i m b.
Proof. induction a as [|c a IH]; [done|]. simpl. apply IH. Qed.

Lemma substring_split (s : string) : ∀ i,
  (i ≤ String.length s)%nat →
  substring 0 i s +:+ substring i (String.length s - i) s = s.
Proof.
  induction s as [|c s IH]; intros [|i] Hi; simpl in *; try lia.
  - done.
  - by rewrite substring_0_length.
  - rewrite append_cons, (IH i) by lia. done.
Qed.

Lemma drop_append (a b : string) : Py.drop (String.length a) (a +:+ b) = b.
Proof.
  unfold Py.drop. rewrite length_append.
  replace (String.length a + String.length b - String.length a)%nat
    with (String.length b) by lia.
  rewrite <- (Nat.add_0_r (String.length a)) at 1.
  by rewrite substring_skip, substring_0_length.
Qed.

Lemma rfind_absent c (s : string) : has_char c s = false → Py.rfind c s = None.
Proof.
  induction s as [|d s IH]; [done|]. simpl.
  rewrite orb_false_iff. intros [Hd Hs]. rewrite (IH Hs).
  apply bool_decide_eq_false in Hd. by destruct (decide (c = d)).
Qed.

Lemma rfind_last c (a b : string) :
  has_char c b = false →
  Py.rfind c (a +:+ String c b) = Some (String.length a).
Proof.
  intros Hb. induction a as [|d a IH]; simpl.
  - rewrite (rfind_absent c b Hb). by destruct (decide (c = c)).
  - by rewrite IH.
Qed.

Lemma has_char_append c (a b : string) :
  has_char c (a +:+ b) = has_char c a || has_char c b.
Proof.
  induction a as [|d a IH]; [done|]. simpl. by rewrite IH, orb_assoc.
Qed.

Lemma basename_of_path (dir name : string) :
  has_char "/" name = false →
  Py.basename (dir +:+ "/" +:+ name) = name ∧ Py.basename name = name.
Proof.
  intros Hname. unfold Py.basename. split.
  - change (dir +:+ "/" +:+ name) with (dir +:+ String "/" name).
    rewrite (rfind_last "/" dir name Hname).
    replace (dir +:+ String "/" name) with ((dir +:+ "/") +:+ name)
      by (by rewrite append_assoc).
    replace (S (String.length dir)) with (String.length (dir +:+ "/"))
      by (rewrite length_append; simpl; lia).
    apply drop_append.
  - by rewrite (rfind_absent "/" name Hname).
Qed.

Lemma splitext_root_of_name (stem ext : string) :
  has_char "/" stem = false → has_char "/" ext = false →
  has_char "." ext = false →
  Py.splitext_root (stem +:+ "." +:+ ext)
  = if Py.all_dots stem then stem +:+ "." +:+ ext else stem.
Proof.
  intros Hstem Hext Hdot. unfold Py.splitext_root.
  rewrite (rfind_absent "/" (stem +:+ "." +:+ ext)).
  2:{ rewrite has_char_append, Hstem. simpl. exact Hext. }
  change (stem +:+ "." +:+ ext) with (stem +:+ String "." ext).
  rewrite (rfind_last "." stem ext Hdot).
  rewrite Nat.sub_0_r, substring_0_append. simpl.
  destruct (Py.all_dots stem); simpl; [done|].
  unfold Py.take. apply substring_0_append.
Qed.

(** X12: the source column of a definition file is its name without
    directory and without extension: for the file [dir/stem.ext], or
    [stem.ext] without directory, the programs are surveyed with the source
    [stem].  (The stem holds no slash and is not made of dots only; the
    extension holds neither dot nor slash.) *)
Theorem definition_file_source w cb qb dir stem ext :
  has_char "/" stem = false → Py.all_dots stem = false →
  has_char "/" ext = false → has_char "." ext = false →
  (∀ file, file = dir +:+ "/" +:+ stem +:+ "." +:+ ext
           ∨ file = stem +:+ "." +:+ ext →
     survey_definition_file w cb qb file
     = (print ("Processing definition file: " +:+ file) ;;
        programs ← lift (json_load w file) ;
        for_each programs (survey_program cb qb stem))).
Proof.
  intros Hstem Hdots Hext Hdot file Hfile.
  unfold survey_definition_file.
  assert (has_char "/" (stem +:+ "." +:+ ext) = false) as Hname.
  { rewrite has_char_append, Hstem. simpl. exact Hext. }
  assert (Py.basename file = stem +:+ "." +:+ ext) as ->.
  { destruct Hfile as [-> | ->];
      by apply (basename_of_path dir (stem +:+ "." +:+ ext)). }
  rewrite (splitext_root_of_name stem ext Hstem Hext Hdot), Hdots.
  reflexivity.
Qed.

Lemma definition_file_source_witness :
  survey_definition_file (Fixtures.world Fixtures.cb_empty) Fixtures.cb_empty
    "" "defs/v1.2/remote.access.json"
  = (print "Processing definition file: defs/v1.2/remote.access.json" ;;
     programs ← lift (Raise IOError) ;
     for_each programs (survey_program Fixtures.cb_empty "" "remote.access")).
Proof.
  apply (definition_file_source (Fixtures.world Fixtures.cb_empty)
           Fixtures.cb_empty "" "defs/v1.2" "remote.access" "json"
           eq_refl eq_refl eq_refl eq_refl).
  by left.
Defined.

(** X13: a definition file whose name has nothing but dots before its last
    dot, such as [.json], has no extension for [splitext]: its source
    column is the whole name. *)
Theorem dot_file_source w cb qb dir stem ext :
  Py.all_dots stem = true →
  has_char "/" ext = false → has_char "." ext = false →
  (∀ file, file = dir +:+ "/" +:+ stem +:+ "." +:+ ext
           ∨ file = stem +:+ "." +:+ ext →
     survey_definition_file w cb qb file
     = (print ("Processing definition file: " +:+ file) ;;
        programs ← lift (json_load w file) ;
        for_each programs
          (survey_program cb qb (stem +:+ "." +:+ ext)))).
Proof.
  intros Hdots Hext Hdot file Hfile.
  assert (has_char "/" stem = false) as Hstem.
  { clear -Hdots. induction stem as [|c stem IH]; [done|]. simpl in *.
    apply andb_true_iff in Hdots as [Hc Hs].
    apply bool_decide_eq_true in Hc as ->. by rewrite (IH Hs). }
  unfold survey_definition_file.
  assert (Py.basename file = stem +:+ "." +:+ ext) as ->.
  { assert (has_char "/" (stem +:+ "." +:+ ext) = false) as Hname
      by (rewrite has_char_append, Hstem; simpl; exact Hext).
    destruct Hfile as [-> | ->];
      by apply (basename_of_path dir (stem +:+ "." +:+ ext)). }
  rewrite (splitext_root_of_name stem ext Hstem Hext Hdot), Hdots.
  reflexivity.
Qed.

Lemma dot_file_source_witness :
  survey_definition_file (Fixtures.world Fixtures.cb_empty) Fixtures.cb_empty
    "" "defs/.json"
  = (print "Processing definition file: defs/.json" ;;
     programs ← lift (Raise IOError) ;
     for_each programs (survey_program Fixtures.cb_empty "" ".json")).
Proof.
  apply (dot_file_source (Fixtures.world Fixtures.cb_empty)
           Fixtures.cb_empty "" "defs" "" "json" eq_refl eq_refl eq_refl).
  by left.
Defined.

Lemma endswith_spec (s suffix : string) :
  Py.endswith s suffix = true ↔ ∃ pre, s = pre +:+ suffix.
Proof.
  unfold Py.endswith. rewrite andb_true_iff, bool_decide_eq_true. split.
  - intros [Hlen Hsub]. apply Nat.leb_le in Hlen.
    exists (substring 0 (String.length s - String.length suffix) s).
    set (k := String.length suffix) in *. rewrite <- Hsub.
    transitivity (substring 0 (String.length s - k) s
                  +:+ substring (String.length s - k)
                        (String.length s - (String.length s - k)) s).
    + symmetry. apply substring_split. lia.
    + do 2 f_equal. lia.
  - intros [pre ->]. rewrite length_append. split.
    + apply Nat.leb_le. lia.
    + replace (String.length pre + String.length suffix
               - String.length suffix)%nat
        with (String.length pre + 0)%nat by lia.
      by rewrite substring_skip, substring_0_length.
Qed.

(** X14: [--defdir p] with an existing directory surveys the files whose
    name ends in [.json], each under the directory the walk lists it in,
    and no other file. *)
Theorem defdir_surveys_json_files w args p :
  criteria_arg args = Defdir p → p ≠ "" → os_path_exists w p = true →
  ∃ files,
    run w args
    = for_each files
        (survey_definition_file w (connection w (profile args))
           (time_window (days args) (minutes args)))
        (St_header (output_filename args)) ∧
    ∀ file, file ∈ files ↔
      ∃ root dirs names stem,
        (root, dirs, names) ∈ os_walk w p ∧ stem +:+ ".json" ∈ names ∧
        file = Py.path_join root (stem +:+ ".json").
Proof.
  intros Hmode Hp Hexists.
  eexists. split.
  - unfold run. apply main_definition_files.
    + unfold find_definition_files, deffile, defdir. rewrite Hmode.
      change (Py.truthy_str None) with false. cbv iota.
      rewrite (truthy_str_Some p Hp).
      change (default "" (Some p)) with p. rewrite Hexists. reflexivity.
    + unfold query. by rewrite Hmode.
    + unfold iocfile. by rewrite Hmode.
  - intros file. rewrite list_elem_of_In, in_flat_map. split.
    + intros ([[root dirs] names] & Hwalk & Hfile).
      apply list_elem_of_In, list_elem_of_fmap in Hfile as (name & -> & Hname).
      apply list_elem_of_filter in Hname as [Hjson Hname].
      apply Is_true_true, endswith_spec in Hjson as [stem ->].
      exists root, dirs, names, stem. by rewrite list_elem_of_In.
    + intros (root & dirs & names & stem & Hwalk & Hname & ->).
      exists (root, dirs, names). split; [by apply list_elem_of_In|].
      apply list_elem_of_In, list_elem_of_fmap.
      exists (stem +:+ ".json"). split; [done|].
      apply list_elem_of_filter. split; [|done].
      apply Is_true_true, endswith_spec. by exists stem.
Qed.

Lemma defdir_surveys_json_files_witness :
  let w := mkWorld (λ _, true)
             (λ _, [("defs", ["old"], ["a.json"; "readme.md"]);
                    ("defs/old", [], ["b.json"; "json"])])
             (λ _, Return []) (λ _, Raise IOError)
             (λ _, Fixtures.cb_empty) in
  let args := mkArgs None None None None (Defdir "defs") None in
  stdout (run w args).2
  = ["Processing definition file: defs/a.json";
     "Processing definition file: defs/old/b.json"].
Proof.
  intros w args.
  destruct (defdir_surveys_json_files w args "defs" eq_refl
              ltac:(discriminate) eq_refl) as (files & Hrun & _).
  reflexivity.
Defined.

(** ** One search per indicator line, at most (lines 157-160) *)

Lemma survey_ioc_sends_once cb t qb line st :
  queries (survey_ioc cb t qb line st).2
  = queries st ++ [ioc_filter t qb line].
Proof.
  unfold survey_ioc, ioc_filter, mbind, M_bind.
  pose proof (process_search_cases cb (t +:+ ":" +:+ Py.strip line) qb st)
    as Hcases.
  destruct (finish (cb (queries st) ((t +:+ ":" +:+ Py.strip line) +:+ qb)))
    as [[]|]; rewrite Hcases; try rewrite write_rows_eq; reflexivity.
Qed.

Lemma survey_iocs_send_prefix cb t qb lines : ∀ st,
  ∃ qs, qs `prefix_of` map (ioc_filter t qb) lines ∧
        queries (for_each lines (survey_ioc cb t qb) st).2 = queries st ++ qs.
Proof.
  induction lines as [|line lines IH]; intros st.
  - exists []. split; [done|]. simpl. by rewrite app_nil_r.
  - rewrite for_each_cons.
    pose proof (survey_ioc_sends_once cb t qb line st) as Hline.
    destruct (survey_ioc cb t qb line st) as [[[]|e] st1]; cbn [snd] in *.
    + destruct (IH st1) as (qs & Hpre & Hqs).
      exists (ioc_filter t qb line :: qs). split.
      * cbn [map]. by apply prefix_cons.
      * rewrite Hqs, Hline. by rewrite <- app_assoc.
    + exists [ioc_filter t qb line]. split; [|done].
      cbn [map]. apply prefix_cons, prefix_nil.
Qed.

(** X15: whatever the server answers, fails or not, a run over an
    indicator file sends the filters of the lines in file order, one per
    line and none twice for a line: the filters sent are a prefix of the
    list of the lines' filters.  Nothing is retried. *)
Theorem ioc_filters_sent_in_order w args p t lines :
  criteria_arg args = Iocfile p → p ≠ "" → ioctype args = Some t →
  readlines w p = Return lines →
  queries (run w args).2
  `prefix_of` map (ioc_filter t (time_window (days args) (minutes args)))
                  lines.
Proof.
  intros Hmode Hp Ht Hlines. unfold run.
  rewrite (main_iocfile w args p t Hmode Hp Ht).
  unfold mbind, M_bind, lift. rewrite Hlines.
  destruct (survey_iocs_send_prefix (connection w (profile args)) t
              (time_window (days args) (minutes args)) lines
              (St_header (output_filename args))) as (qs & Hpre & Hqs).
  by rewrite Hqs.
Qed.

Lemma ioc_filters_sent_in_order_witness :
  let args := mkArgs None None None None (Iocfile "iocs.txt") (Some "md5") in
  let w := mkWorld (λ _, true) (λ _, []) (λ _, Raise IOError)
             (λ _, Return [Fixtures.line "aaa"; Fixtures.line "bbb"])
             (λ _, Fixtures.cb_table
                     [("md5:aaa", mkResponse [] (Some (ApiError "500")))]) in
  queries (run w args).2 `prefix_of` ["md5:aaa"; "md5:bbb"].
Proof.
  intros args w.
  apply (ioc_filters_sent_in_order w args "iocs.txt" "md5"
           [Fixtures.line "aaa"; Fixtures.line "bbb"]);
    [reflexivity | discriminate | reflexivity | reflexivity].
Defined.

(** ** Empty arguments (lines 124, 129, 147, 154) *)

(** X16: an empty string given for [--deffile], [--defdir], [--query] or
    [--iocfile] (the last with an [--ioctype]) counts as no criteria at
    all: nothing is sent to the server, no definition file is processed
    and nothing is printed, and no row but the header is written. *)
Theorem empty_criteria_survey_nothing w args :
  criteria_arg args = Deffile "" ∨ criteria_arg args = Defdir ""
  ∨ criteria_arg args = Query ""
  ∨ (criteria_arg args = Iocfile "" ∧ ioctype args ≠ None) →
  queries (run w args).2 = [] ∧ stdout (run w args).2 = [] ∧
  ∀ row, row ∈ csv_rows (run w args).2 → row = header.
Proof.
  intros Hmode.
  assert (run w args = (Return (), St_header (output_filename args))) as ->.
  { unfold run, main, find_definition_files.
    unfold iocfile, deffile, defdir, query.
    destruct Hmode as [-> | [-> | [-> | [-> Htype]]]]; try reflexivity.
    rewrite bool_decide_eq_false_2 by (by intros [_ ?]). reflexivity. }
  repeat split. intros row Hrow. by apply list_elem_of_singleton in Hrow.
Qed.

Lemma empty_criteria_survey_nothing_witness :
  queries
    (run (Fixtures.world
            (Fixtures.cb_table [("", mkResponse [Fixtures.bob] None)]))
         (mkArgs (Some "host7") None None None (Query "") None)).2 = [].
Proof.
  apply (empty_criteria_survey_nothing
           (Fixtures.world
              (Fixtures.cb_table [("", mkResponse [Fixtures.bob] None)]))
           (mkArgs (Some "host7") None None None (Query "") None)).
  do 2 right. by left.
Defined.

(** ** An interrupted program (lines 63-76, 176-184) *)



(** ** Negative counts (lines 118-121) *)

(** X18: a negative [--days] or [--minutes] is not refused: the count is
    written with its sign after the minus of the filter, which gives
    [" start:--<N>m"] with N the absolute number of minutes. *)
Theorem negative_count_double_minus (n : Z) (minutes : option Z) :
  n < 0 →
  time_window (Some n) minutes
  = " start:--" +:+ Py.fmt_d (- (n * 1440)) +:+ "m" ∧
  time_window None (Some n) = " start:--" +:+ Py.fmt_d (- n) +:+ "m".
Proof.
  intros Hn. unfold time_window, Py.truthy_int.
  destruct (Z.eqb_spec n 0) as [|_]; [lia|]. cbn [negb].
  change (default 0 (Some n)) with n.
  assert (∀ k, k < 0 → Py.fmt_d k = "-" +:+ Py.fmt_d (- k)) as Hneg.
  { intros [|k|k] Hk; try lia. reflexivity. }
  split.
  - rewrite (Hneg (n * 1440)) by lia. reflexivity.
  - rewrite (Hneg n) by lia. reflexivity.
Qed.

Lemma negative_count_double_minus_witness :
  time_window (Some (-1)) None = " start:--1440m".
Proof.
  apply (proj1 (negative_count_double_minus (-1) None ltac:(lia))).
Defined.

(** ** Rows are unique per source only (lines 157-165) *)

Lemma survey_ioc_rows cb t qb line st :
  goes_on (cb (queries st) (ioc_filter t qb line)) →
  ∃ st', survey_ioc cb t qb line st = (Return (), st') ∧
         queries st' = queries st ++ [ioc_filter t qb line] ∧
         csv_rows st'
         = csv_rows st
           ++ map (row_of (Py.strip line) "ioc")
                  (elements
                     (add_all ∅
                        (records (cb (queries st) (ioc_filter t qb line))))).
Proof.
  unfold goes_on, survey_ioc, ioc_filter. intros Hfin.
  unfold mbind, M_bind.
  pose proof (process_search_cases cb (t +:+ ":" +:+ Py.strip line) qb st)
    as Hcases.
  destruct Hfin as [Hfin | Hfin]; rewrite Hfin in Hcases;
    rewrite Hcases, write_rows_eq; eexists; repeat split.
Qed.

(** X19: the rows are unique within one source, not within the file: when
    an indicator file holds the same line twice and the server gives the
    same answer both times, every row of that answer is written twice. *)
Theorem duplicate_lines_duplicate_rows w args p t line resp :
  criteria_arg args = Iocfile p → p ≠ "" → ioctype args = Some t →
  readlines w p = Return [line; line] →
  let cb := connection w (profile args) in
  let filter := ioc_filter t (time_window (days args) (minutes args)) line in
  cb [] filter = resp → cb [filter] filter = resp → goes_on resp →
  let rows := map (row_of (Py.strip line) "ioc")
                  (elements (add_all ∅ (records resp))) in
  (run w args).1 = Return () ∧
  csv_rows (run w args).2 = header :: rows ++ rows.
Proof.
  intros Hmode Hp Ht Hlines cb filter Hfirst Hsecond Hgo rows. unfold run.
  rewrite (main_iocfile w args p t Hmode Hp Ht).
  unfold mbind, M_bind, lift. rewrite Hlines.
  rewrite for_each_cons.
  destruct (survey_ioc_rows cb t (time_window (days args) (minutes args)) line
              (St_header (output_filename args)))
    as (st1 & Hrun1 & Hq1 & Hrows1).
  { cbn [St_header queries]. fold filter. by rewrite Hfirst. }
  fold cb. rewrite Hrun1. rewrite for_each_cons.
  destruct (survey_ioc_rows cb t (time_window (days args) (minutes args)) line
              st1) as (st2 & Hrun2 & Hq2 & Hrows2).
  { rewrite Hq1. cbn [St_header queries app]. fold filter.
    by rewrite Hsecond. }
  rewrite Hrun2. cbn [for_each]. unfold mret, M_ret. cbn [fst snd].
  split; [done|].
  rewrite Hrows2, Hrows1, Hq1. cbn [St_header queries csv_rows app].
  fold filter. rewrite Hfirst, Hsecond. fold rows. reflexivity.
Qed.

Lemma duplicate_lines_duplicate_rows_witness :
  let args := mkArgs None None None None (Iocfile "iocs.txt") (Some "md5") in
  let w := mkWorld (λ _, true) (λ _, []) (λ _, Raise IOError)
             (λ _, Return [Fixtures.line "abc"; Fixtures.line "abc"])
             (λ _, Fixtures.cb_table
                     [("md5:abc", mkResponse [Fixtures.bob] None)]) in
  csv_rows (run w args).2
  = [header;
     ["srv-2"; "bob"; "/usr/bin/nc"; "nc -l 4444"; "abc"; "ioc"];
     ["srv-2"; "bob"; "/usr/bin/nc"; "nc -l 4444"; "abc"; "ioc"]].
Proof.
  intros args w.
  destruct (duplicate_lines_duplicate_rows w args "iocs.txt" "md5"
              (Fixtures.line "abc") (mkResponse [Fixtures.bob] None)
              eq_refl ltac:(discriminate) eq_refl eq_refl eq_refl eq_refl
              ltac:(by left)) as [_ Hrows].
  rewrite Hrows. by vm_compute.
Defined.
